(** * Weekly symptom dashboard of [app/services/user_dashboard.py]

    A shallow embedding of [build_user_weekly_dashboard] and its helpers
    ([_mean], [_weighted_score], [_severity_bucket], [_sleep_penalty],
    [_parse_checkin_note], [_apply_alert_rules]).

    Python floats are modelled as exact rationals [Q], except in the module
    [Float64], which follows the [ins] column in binary64 arithmetic to show
    what rounding does to it; Python dicts keyed by
    dates are modelled as [gmap Z _] where a date is its proleptic ordinal
    ([date.toordinal()]); the string-keyed inner dict of lists of one day is
    the record [DayData], a missing key reading as the empty list, as the
    source's [.get(key, [])] does. *)

From Stdlib Require Import QArith Qabs Lqa Ascii.
From stdpp Require Import gmap list sorting strings.
From Stdlib Require PrimFloat Uint63.

Local Open Scope Q_scope.

(** ** Python numeric helpers *)

(** [a < b] on floats. *)
Definition Qltb (a b : Q) : bool := negb (Qle_bool b a).

(** Python's built-in [min(a, b)]: keeps [a] unless [b < a]. *)
Definition py_min (a b : Q) : Q := if Qltb b a then b else a.

(** Python's built-in [max(a, b)]: keeps [a] unless [b > a]. *)
Definition py_max (a b : Q) : Q := if Qltb a b then b else a.

(** [sum(values)]: a left fold starting at [0], here with exact additions. *)
Definition py_sum (values : list Q) : Q := fold_left Qplus values 0.

(** [len(values)] as a float. *)
Definition py_len (values : list Q) : Q := inject_Z (Z.of_nat (length values)).

(** [_mean] *)
Definition _mean (values : list Q) : option Q :=
  match values with
  | [] => None
  | _ => Some (py_sum values / py_len values)
  end.

(** [_weighted_score]: the loop accumulates [numer] and [denom] over the
    pairs whose value is not [None]. *)
Definition weighted_step (acc : Q * Q) (pair : option Q * Q) : Q * Q :=
  let '(numer, denom) := acc in
  let '(value, weight) := pair in
  match value with
  | None => (numer, denom)
  | Some v => (numer + v * weight, denom + weight)
  end.

Definition _weighted_score (pairs : list (option Q * Q)) : option Q :=
  let '(numer, denom) := fold_left weighted_step pairs (0, 0) in
  if Qeq_bool denom 0 then None else Some (numer / denom).

(** [_severity_bucket] *)
Definition _severity_bucket (score : Q) : string :=
  if Qltb score 25 then "minimal"
  else if Qltb score 50 then "mild"
  else if Qltb score 75 then "moderate"
  else "severe".

(** [_sleep_penalty] *)
Definition _sleep_penalty (sleep_hours : option Q) : option Q :=
  match sleep_hours with
  | None => None
  | Some h => let diff := Qabs (h - 7.5) in Some (py_min 100.0 ((diff / 4.5) * 100.0))
  end.

(** The check-in [note] column as [_parse_checkin_note] sees it:
    [NoteOther] is [None], the empty string, text that is not JSON or JSON
    that is not an object (all read as [(0, 0)]); [NoteDict c t] is a JSON
    object whose [challenge_completed_count] and [challenge_total_count]
    convert with [int(... or 0)] to [c] and [t]. *)
Inductive Note :=
| NoteOther
| NoteDict (completed total : Z).

(** [_parse_checkin_note] *)
Definition _parse_checkin_note (raw_note : Note) : Z * Z :=
  match raw_note with
  | NoteOther => (0%Z, 0%Z)
  | NoteDict completed total => (Z.max 0 completed, Z.max 0 total)
  end.

(** ** Rows read from the database *)

Inductive AssessmentType := PHQ9 | GAD7 | ISI.

(** [CheckIn]; [ci_date] is [created_at.date()]. *)
Record CheckIn := {
  ci_date : Z;
  mood_score : Z;
  sleep_hours : option Q;
  exercised : bool;
  note : Note
}.

(** The [extracted] JSON object of a chat event: each scale is [None] when
    the key is missing or null; [distortion] is [None] when missing or not
    an object, otherwise the list of its values, a value being [None] when
    [float(value)] raises. *)
Record Extracted := {
  distress_0_10 : option Q;
  rumination_0_10 : option Q;
  sleep_difficulty_0_10 : option Q;
  distortion : option (list (option Q))
}.

(** [ChatEvent]; [extracted] is [None] when [row.extracted or {}] is not a
    dict. *)
Record ChatEvent := {
  ch_date : Z;
  extracted : option Extracted
}.

Record Assessment := {
  as_date : Z;
  as_type : AssessmentType;
  total_score : Z
}.

(** ** [day_data]: one inner dict of lists per day *)

Record DayData := {
  dd_mood : list Q;
  dd_sleep_hours : list Q;
  dd_challenge_completion_rate : list Q;
  dd_distress : list Q;
  dd_rumination : list Q;
  dd_sleep_difficulty : list Q;
  dd_distortion_total : list Q;
  dd_phq_total : list Q
}.

Definition dd_empty : DayData := Build_DayData [] [] [] [] [] [] [] [].

(** Appending to each list of a day's inner dict. *)
Definition dd_app (a b : DayData) : DayData := {|
  dd_mood := dd_mood a ++ dd_mood b;
  dd_sleep_hours := dd_sleep_hours a ++ dd_sleep_hours b;
  dd_challenge_completion_rate :=
    dd_challenge_completion_rate a ++ dd_challenge_completion_rate b;
  dd_distress := dd_distress a ++ dd_distress b;
  dd_rumination := dd_rumination a ++ dd_rumination b;
  dd_sleep_difficulty := dd_sleep_difficulty a ++ dd_sleep_difficulty b;
  dd_distortion_total := dd_distortion_total a ++ dd_distortion_total b;
  dd_phq_total := dd_phq_total a ++ dd_phq_total b
|}.

Definition opt_list (o : option Q) : list Q :=
  match o with None => [] | Some x => [x] end.

(** Grouping rows by a date into a [defaultdict]: a row that touches the
    dict appends its contribution to the entry of its date (creating the
    entry), a row that does not touch it leaves the dict as it is. *)
Section GroupBy.
Context {A V : Type} (key : A -> Z) (touch : A -> bool) (contrib : A -> V)
  (vapp : V -> V -> V) (vnil : V).

Definition group_push (m : gmap Z V) (x : A) : gmap Z V :=
  if touch x then <[key x := vapp (default vnil (m !! key x)) (contrib x)]> m
  else m.

Definition group_by (l : list A) (m : gmap Z V) : gmap Z V :=
  fold_left group_push l m.

(** Whether row [x] appends to the entry of date [d]. *)
Definition hits (d : Z) (x : A) : bool := touch x && bool_decide (key x = d).

(** Appending the contributions of [xs], in order, to [v]. *)
Definition fold_contrib (xs : list A) (v : V) : V :=
  fold_left (fun acc x => vapp acc (contrib x)) xs v.
End GroupBy.

(** The challenge completion rate of one check-in (source lines 134-140). *)
Definition checkin_rate (row : CheckIn) : Q :=
  let '(completed, total) := _parse_checkin_note (note row) in
  if (0 <? total)%Z then py_min 1.0 (inject_Z completed / inject_Z total)
  else if exercised row then 1.0
  else 0.0.

(** What one check-in appends to its day (source lines 128-140). *)
Definition checkin_contrib (row : CheckIn) : DayData := {|
  dd_mood := [inject_Z (mood_score row)];
  dd_sleep_hours := opt_list (sleep_hours row);
  dd_challenge_completion_rate := [checkin_rate row];
  dd_distress := []; dd_rumination := []; dd_sleep_difficulty := [];
  dd_distortion_total := []; dd_phq_total := []
|}.

(** The [distortion] sum: [total += float(value)], skipping values that do
    not convert. *)
Definition distortion_sum (values : list (option Q)) : Q :=
  fold_left (fun total v => match v with Some x => total + x | None => total end)
    values 0.0.

(** What one chat event appends to its day (source lines 142-161). *)
Definition chat_contrib (row : ChatEvent) : DayData :=
  match extracted row with
  | None => dd_empty
  | Some ex => {|
      dd_mood := []; dd_sleep_hours := []; dd_challenge_completion_rate := [];
      dd_distress := opt_list (distress_0_10 ex);
      dd_rumination := opt_list (rumination_0_10 ex);
      dd_sleep_difficulty := opt_list (sleep_difficulty_0_10 ex);
      dd_distortion_total :=
        match distortion ex with None => [] | Some vs => [distortion_sum vs] end;
      dd_phq_total := []
    |}
  end.

(** A chat event indexes [day_data[d]] only when one of its appends runs. *)
Definition chat_touches (row : ChatEvent) : bool :=
  match extracted row with
  | None => false
  | Some ex =>
      bool_decide (is_Some (distress_0_10 ex)) || bool_decide (is_Some (rumination_0_10 ex))
      || bool_decide (is_Some (sleep_difficulty_0_10 ex))
      || bool_decide (is_Some (distortion ex))
  end.

(** What one assessment appends to its day (source lines 163-165). *)
Definition assessment_contrib (row : Assessment) : DayData := {|
  dd_mood := []; dd_sleep_hours := []; dd_challenge_completion_rate := [];
  dd_distress := []; dd_rumination := []; dd_sleep_difficulty := [];
  dd_distortion_total := []; dd_phq_total := [inject_Z (total_score row)]
|}.

Definition is_phq9 (a : Assessment) : bool :=
  match as_type a with PHQ9 => true | _ => false end.

(** [day_data] after the three loops (source lines 126-165). *)
Definition build_day_data (checkins : list CheckIn) (chats : list ChatEvent)
    (assessments : list Assessment) : gmap Z DayData :=
  let m1 := group_by ci_date (fun _ => true) checkin_contrib dd_app dd_empty checkins ∅ in
  let m2 := group_by ch_date chat_touches chat_contrib dd_app dd_empty chats m1 in
  group_by as_date (fun _ => true) assessment_contrib dd_app dd_empty assessments m2.

(** [sorted(d.keys())] for a dict keyed by dates. *)
Definition sorted_keys {V} (m : gmap Z V) : list Z :=
  merge_sort Z.le (elements (dom m)).

(** ** Daily signals: the per-day means and the carried questionnaire *)

Record DailySignal := {
  ds_date : Z;
  ds_mood : option Q;
  ds_sleep_hours : option Q;
  ds_distress : option Q;
  ds_rumination : option Q;
  ds_sleep_difficulty : option Q;
  ds_distortion_total : option Q;
  ds_challenge_completion : option Q;
  ds_carried_phq : option Q
}.

(** The new value of [carry_phq_scaled] after a day whose PHQ mean is
    [phq] (source lines 181-184). *)
Definition next_carry (phq : option Q) (carry_phq_scaled : option Q) : option Q :=
  match phq with
  | Some p => Some ((p / 27.0) * 100.0)
  | None => carry_phq_scaled
  end.

(** The means read at the start of the loop body for day [d] (source lines
    173-184), with the updated carry. *)
Definition day_signal (d : Z) (dd : DayData) (carry_phq_scaled : option Q) : DailySignal := {|
  ds_date := d;
  ds_mood := _mean (dd_mood dd);
  ds_sleep_hours := _mean (dd_sleep_hours dd);
  ds_distress := _mean (dd_distress dd);
  ds_rumination := _mean (dd_rumination dd);
  ds_sleep_difficulty := _mean (dd_sleep_difficulty dd);
  ds_distortion_total := _mean (dd_distortion_total dd);
  ds_challenge_completion := _mean (dd_challenge_completion_rate dd);
  ds_carried_phq := next_carry (_mean (dd_phq_total dd)) carry_phq_scaled
|}.

(** The [for d in sorted(day_data.keys())] loop, threading
    [carry_phq_scaled]. *)
Fixpoint signals_loop (day_data : gmap Z DayData) (carry_phq_scaled : option Q)
    (days : list Z) : list DailySignal :=
  match days with
  | [] => []
  | d :: rest =>
      let s := day_signal d (default dd_empty (day_data !! d)) carry_phq_scaled in
      s :: signals_loop day_data (ds_carried_phq s) rest
  end.

(** ** Daily proxy scores (source lines 186-230) *)

Definition mood_inverse (s : DailySignal) : option Q :=
  match ds_mood s with None => None | Some m => Some ((10.0 - m) * 10.0) end.
Definition distress_scaled (s : DailySignal) : option Q :=
  match ds_distress s with None => None | Some x => Some (x * 10.0) end.
Definition rum_scaled (s : DailySignal) : option Q :=
  match ds_rumination s with None => None | Some x => Some (x * 10.0) end.
Definition sleep_diff_scaled (s : DailySignal) : option Q :=
  match ds_sleep_difficulty s with None => None | Some x => Some (x * 10.0) end.
Definition distortion_scaled (s : DailySignal) : option Q :=
  match ds_distortion_total s with
  | None => None
  | Some x => Some (py_min 100.0 (x * 12.0))
  end.
Definition sleep_pen (s : DailySignal) : option Q := _sleep_penalty (ds_sleep_hours s).

Definition dep_pairs (s : DailySignal) : list (option Q * Q) :=
  [(ds_carried_phq s, 0.45); (mood_inverse s, 0.25); (rum_scaled s, 0.2);
   (distortion_scaled s, 0.1)].
Definition anx_pairs (s : DailySignal) : list (option Q * Q) :=
  [(distress_scaled s, 0.45); (rum_scaled s, 0.25); (mood_inverse s, 0.2);
   (distortion_scaled s, 0.1)].
Definition ins_pairs (s : DailySignal) : list (option Q * Q) :=
  [(sleep_diff_scaled s, 0.6); (sleep_pen s, 0.4)].

(** [x if x is not None else 50.0] (source lines 210-212). *)
Definition default_50 (x : option Q) : Q :=
  match x with Some v => v | None => 50.0 end.

(** [dep], [anx], [ins] before the challenge adjustment. *)
Definition proxy_blend (s : DailySignal) : Q * Q * Q :=
  (default_50 (_weighted_score (dep_pairs s)),
   default_50 (_weighted_score (anx_pairs s)),
   default_50 (_weighted_score (ins_pairs s))).

(** [dep], [anx], [ins] after the challenge adjustment, before clipping
    (source lines 214-217). *)
Definition proxy_preclip (s : DailySignal) : Q * Q * Q :=
  let '(dep, anx, ins) := proxy_blend s in
  match ds_challenge_completion s with
  | Some c => (dep - c * 12.0, anx - c * 10.0, ins - c * 6.0)
  | None => (dep, anx, ins)
  end.

(** [max(0.0, min(100.0, x))] *)
Definition clip (x : Q) : Q := py_max 0.0 (py_min 100.0 x).

Record DayScore := {
  sc_date : Z;
  sc_dep : Q;
  sc_anx : Q;
  sc_ins : Q
}.

(** The clip of lines 219-221, then the one of the appended dict. *)
Definition score_signal (s : DailySignal) : DayScore :=
  let '(dep, anx, ins) := proxy_preclip s in
  let dep := clip dep in
  let anx := clip anx in
  let ins := clip ins in
  {| sc_date := ds_date s; sc_dep := clip dep; sc_anx := clip anx; sc_ins := clip ins |}.

(** [day_scores] *)
Definition day_scores (day_data : gmap Z DayData) : list DayScore :=
  map score_signal (signals_loop day_data None (sorted_keys day_data)).

(** ** Weekly roll-up (source lines 232-254) *)

(** [date.weekday()] of the date with ordinal [d]: ordinal 1 is a Monday. *)
Definition weekday (d : Z) : Z := ((d + 6) mod 7)%Z.

(** [row["date"] - timedelta(days=row["date"].weekday())] *)
Definition week_start (d : Z) : Z := (d - weekday d)%Z.

(** A weekly row before [_apply_alert_rules]; [week_start_date] holds the
    date whose [str] the source stores. *)
Record WeekRow := {
  week_start_date : Z;
  dep_week_pred_0_100 : Q;
  anx_week_pred_0_100 : Q;
  ins_week_pred_0_100 : Q;
  symptom_composite_pred_0_100 : Q;
  active_days : nat
}.

(** [x or 50.0] for a float or [None]: [None] and [0.0] are falsy. *)
Definition or_50 (x : option Q) : Q :=
  match x with
  | Some v => if Qeq_bool v 0 then 50.0 else v
  | None => 50.0
  end.

Definition week_row (week_start : Z) (items : list DayScore) : WeekRow :=
  let dep_week := or_50 (_mean (map sc_dep items)) in
  let anx_week := or_50 (_mean (map sc_anx items)) in
  let ins_week := or_50 (_mean (map sc_ins items)) in
  let composite := (dep_week + anx_week + ins_week) / 3.0 in
  {| week_start_date := week_start;
     dep_week_pred_0_100 := dep_week;
     anx_week_pred_0_100 := anx_week;
     ins_week_pred_0_100 := ins_week;
     symptom_composite_pred_0_100 := composite;
     active_days := length items |}.

(** [weekly]: the day scores grouped by week start. *)
Definition weekly_buckets (scores : list DayScore) : gmap Z (list DayScore) :=
  group_by (fun r => week_start (sc_date r)) (fun _ => true) (fun r => [r])
    (@app DayScore) [] scores ∅.

Definition weekly_rows (scores : list DayScore) : list WeekRow :=
  let weekly := weekly_buckets scores in
  map (fun ws => week_row ws (default [] (weekly !! ws))) (sorted_keys weekly).

(** ** Alert rules ([_apply_alert_rules]) *)

Record WeeklyRecord := {
  wr_row : WeekRow;
  dep_week_delta : option Q;
  anx_week_delta : option Q;
  ins_week_delta : option Q;
  dep_severity : string;
  anx_severity : string;
  ins_severity : string;
  rule_week_delta_worsen : Z;
  rule_any_severe : Z;
  rule_composite_high : Z;
  alert_risk_score : Z;
  alert_flag : Z;
  alert_level : string;
  alert_reason_codes : string
}.

(** [None if prev is None else cur - prev] *)
Definition delta (prev : option Q) (cur : Q) : option Q :=
  match prev with None => None | Some p => Some (cur - p) end.

(** [(delta or 0) >= 5] *)
Definition jump (d : option Q) : bool :=
  let v := match d with
           | Some x => if Qeq_bool x 0 then 0 else x
           | None => 0
           end in
  Qle_bool 5 v.

(** The loop body for one row, given [prev_dep], [prev_anx], [prev_ins]. *)
Definition alert_row (prev_dep prev_anx prev_ins : option Q) (row : WeekRow) : WeeklyRecord :=
  let dep := dep_week_pred_0_100 row in
  let anx := anx_week_pred_0_100 row in
  let ins := ins_week_pred_0_100 row in
  let dep_d := delta prev_dep dep in
  let anx_d := delta prev_anx anx in
  let ins_d := delta prev_ins ins in
  let dep_s := _severity_bucket dep in
  let anx_s := _severity_bucket anx in
  let ins_s := _severity_bucket ins in
  let rule_week_delta_worsen := jump dep_d || jump anx_d || jump ins_d in
  let rule_any_severe := existsb (fun x => String.eqb x "severe") [dep_s; anx_s; ins_s] in
  let rule_composite_high := Qle_bool 65 (symptom_composite_pred_0_100 row) in
  let r1 := Z.b2z rule_week_delta_worsen in
  let r2 := Z.b2z rule_any_severe in
  let r3 := Z.b2z rule_composite_high in
  let score := (r1 * 1 + r2 * 2 + r3 * 2)%Z in
  let reasons : list string := [] in
  let reasons := if rule_week_delta_worsen then reasons ++ ["worsening_delta"] else reasons in
  let reasons := if rule_any_severe then reasons ++ ["severe_band"] else reasons in
  let reasons := if rule_composite_high then reasons ++ ["high_composite"] else reasons in
  {| wr_row := row;
     dep_week_delta := dep_d; anx_week_delta := anx_d; ins_week_delta := ins_d;
     dep_severity := dep_s; anx_severity := anx_s; ins_severity := ins_s;
     rule_week_delta_worsen := r1; rule_any_severe := r2; rule_composite_high := r3;
     alert_risk_score := score;
     alert_flag := Z.b2z (2 <=? score)%Z;
     alert_level := if (4 <=? score)%Z then "high"
                    else if (2 <=? score)%Z then "medium" else "low";
     alert_reason_codes := String.concat "|" reasons |}.

Fixpoint alert_loop (prev_dep prev_anx prev_ins : option Q) (rows : list WeekRow)
    : list WeeklyRecord :=
  match rows with
  | [] => []
  | row :: rest =>
      alert_row prev_dep prev_anx prev_ins row
      :: alert_loop (Some (dep_week_pred_0_100 row)) (Some (anx_week_pred_0_100 row))
           (Some (ins_week_pred_0_100 row)) rest
  end.

Definition _apply_alert_rules (rows : list WeekRow) : list WeeklyRecord :=
  alert_loop None None None rows.

(** ** [build_user_weekly_dashboard]: the rows of one user, as the three
    queries return them (assessments of every type; the query keeps PHQ-9). *)
Definition build_user_weekly_dashboard (checkins : list CheckIn) (chats : list ChatEvent)
    (assessments : list Assessment) : list WeeklyRecord :=
  let assessments := filter (fun a => is_phq9 a = true) assessments in
  let day_data := build_day_data checkins chats assessments in
  if decide (dom day_data = ∅) then []
  else _apply_alert_rules (weekly_rows (day_scores day_data)).

(** [str.split("|")], as [admin_service] reads the reason codes back. *)
Fixpoint split_bar_aux (s : string) (cur : string) : list string :=
  match s with
  | EmptyString => [cur]
  | String c rest =>
      if Ascii.eqb c "|"%char then cur :: split_bar_aux rest ""
      else split_bar_aux rest (cur +:+ String c EmptyString)
  end.
Definition split_bar (s : string) : list string := split_bar_aux s "".

(** ** The reason list, as the spec words it, and the days of a sample *)

(** The subset of [["worsening_delta"; "severe_band"; "high_composite"]]
    whose rule flag is set, in the order of that list. *)
Definition fired_subset (flags : list bool) : list string :=
  map snd (List.filter fst (combine flags ["worsening_delta"; "severe_band"; "high_composite"])).

(** A check-in on day [d] with mood [m] and nothing else. *)
Definition plain_checkin (d m : Z) : CheckIn :=
  {| ci_date := d; mood_score := m; sleep_hours := None; exercised := false; note := NoteOther |}.

(** 2024-01-01 (a Monday) is the date with ordinal 738886. *)
Definition monday_2024_01_01 : Z := 738886.

(** The alert rules as the spec words them, for one weekly record. *)
Definition rules_spec (r : WeeklyRecord) : Prop :=
  let rd := rule_week_delta_worsen r in
  let rs := rule_any_severe r in
  let rc := rule_composite_high r in
  let score := alert_risk_score r in
  ((rd = 0 \/ rd = 1)%Z /\
   (rd = 1%Z <-> exists x, (dep_week_delta r = Some x \/ anx_week_delta r = Some x \/
                          ins_week_delta r = Some x) /\ 5 <= x)) /\
  ((rs = 0 \/ rs = 1)%Z /\
   (rs = 1%Z <-> dep_severity r = "severe" \/ anx_severity r = "severe" \/
               ins_severity r = "severe") /\
   (rs = 1%Z <-> 75 <= dep_week_pred_0_100 (wr_row r) \/ 75 <= anx_week_pred_0_100 (wr_row r) \/
               75 <= ins_week_pred_0_100 (wr_row r))) /\
  ((rc = 0 \/ rc = 1)%Z /\ (rc = 1%Z <-> 65 <= symptom_composite_pred_0_100 (wr_row r))) /\
  score = (1 * rd + 2 * rs + 2 * rc)%Z /\
  ((alert_flag r = 0 \/ alert_flag r = 1)%Z /\ (alert_flag r = 1%Z <-> (2 <= score)%Z)) /\
  (alert_level r = "high" <-> (4 <= score)%Z) /\
  (alert_level r = "medium" <-> (2 <= score < 4)%Z) /\
  (alert_level r = "low" <-> (score < 2)%Z).

(** The blended values, before the challenge adjustment, and the values
    after it, before clipping. *)
Definition blend_dep (s : DailySignal) : Q := fst (fst (proxy_blend s)).
Definition blend_anx (s : DailySignal) : Q := snd (fst (proxy_blend s)).
Definition blend_ins (s : DailySignal) : Q := snd (proxy_blend s).
Definition preclip_dep (s : DailySignal) : Q := fst (fst (proxy_preclip s)).
Definition preclip_anx (s : DailySignal) : Q := snd (fst (proxy_preclip s)).
Definition preclip_ins (s : DailySignal) : Q := snd (proxy_preclip s).

(** A signal with its challenge completion rate replaced. *)
Definition with_challenge (c : option Q) (s : DailySignal) : DailySignal := {|
  ds_date := ds_date s; ds_mood := ds_mood s; ds_sleep_hours := ds_sleep_hours s;
  ds_distress := ds_distress s; ds_rumination := ds_rumination s;
  ds_sleep_difficulty := ds_sleep_difficulty s;
  ds_distortion_total := ds_distortion_total s;
  ds_challenge_completion := c; ds_carried_phq := ds_carried_phq s |}.

(** The spec's blend: the terms whose value is defined, with their weights. *)
Fixpoint defined_terms (terms : list (option Q * Q)) : list (Q * Q) :=
  match terms with
  | [] => []
  | (Some v, w) :: rest => (v, w) :: defined_terms rest
  | (None, _) :: rest => defined_terms rest
  end.

Definition sum_value_weight (l : list (Q * Q)) : Q :=
  fold_right (fun p acc => fst p * snd p + acc) 0 l.
Definition sum_weight (l : list (Q * Q)) : Q :=
  fold_right (fun p acc => snd p + acc) 0 l.

(** The weighted mean over the defined terms, renormalised by their
    weights, and [50.0] when no term is defined. *)
Definition spec_blend (terms : list (option Q * Q)) : Q :=
  match defined_terms terms with
  | [] => 50.0
  | ts => sum_value_weight ts / sum_weight ts
  end.

(** The mean of the PHQ-9 totals recorded on day [d], if any. *)
Definition day_phq (day_data : gmap Z DayData) (d : Z) : option Q :=
  _mean (dd_phq_total (default dd_empty (day_data !! d))).

(** Two weekly rows: a first week with a severe anxiety score and a
    composite of 70, then a week whose dep rises by 6 with a composite of
    55 and no severe score. *)
Definition alert_sample_rows : list WeekRow :=
  [ {| week_start_date := monday_2024_01_01; dep_week_pred_0_100 := 60;
       anx_week_pred_0_100 := 80; ins_week_pred_0_100 := 70;
       symptom_composite_pred_0_100 := 70; active_days := 3 |};
    {| week_start_date := monday_2024_01_01 + 7; dep_week_pred_0_100 := 66;
       anx_week_pred_0_100 := 50; ins_week_pred_0_100 := 49;
       symptom_composite_pred_0_100 := 55; active_days := 2 |} ].

(** A PHQ-9 total of 18 on the Monday, check-ins with no questionnaire on
    the following days and on the next Monday. *)
Definition carry_sample_day_data : gmap Z DayData :=
  build_day_data
    [plain_checkin (monday_2024_01_01 + 1) 5; plain_checkin (monday_2024_01_01 + 3) 6;
     plain_checkin (monday_2024_01_01 + 7) 7]
    [] [{| as_date := monday_2024_01_01; as_type := PHQ9; total_score := 18 |}].

(** Two check-ins on the Monday: one whose note records 1 of 2 challenges
    completed (rate 0.5), one with the exercise flag and no such note
    (rate 1.0); the day's challenge completion rate is 0.75. *)
Definition challenge_sample_checkins : list CheckIn :=
  [{| ci_date := monday_2024_01_01; mood_score := 4; sleep_hours := Some 6;
      exercised := false; note := NoteDict 1 2 |};
   {| ci_date := monday_2024_01_01; mood_score := 6; sleep_hours := Some 7;
      exercised := true; note := NoteOther |}].

Definition challenge_sample_day_data : gmap Z DayData :=
  build_day_data challenge_sample_checkins [] [].

(** ** Callers in [app/services/admin_service.py] *)

(** The characters [str.isspace()] holds for, as the UTF-8 byte sequences
    that encode them (strings are byte strings here): tab to carriage
    return, the separators 0x1c-0x1f, the space, U+0085, U+00A0, U+1680,
    U+2000-U+200A, U+2028, U+2029, U+202F, U+205F and U+3000. *)
Definition py_whitespace : list (list ascii) :=
  map (fun n => [ascii_of_nat n]) [9; 10; 11; 12; 13; 28; 29; 30; 31; 32]%nat ++
  map (map ascii_of_nat)
    ([[194; 133]; [194; 160]; [225; 154; 128]] ++
     map (fun n => [226; 128; n]) (seq 128 11) ++
     [[226; 128; 168]; [226; 128; 169]; [226; 128; 175]; [226; 129; 159]; [227; 128; 128]])%nat.

(** [w] as a prefix of [l]: the rest of [l] after it. *)
Fixpoint strip_prefix (w l : list ascii) : option (list ascii) :=
  match w, l with
  | [], _ => Some l
  | a :: w', b :: l' => if Ascii.eqb a b then strip_prefix w' l' else None
  | _ :: _, [] => None
  end.

(** Removes one leading character of [ws], if [l] starts with one. *)
Fixpoint drop_one (ws : list (list ascii)) (l : list ascii) : option (list ascii) :=
  match ws with
  | [] => None
  | w :: ws' =>
      match strip_prefix w l with
      | Some rest => Some rest
      | None => drop_one ws' l
      end
  end.

(** Removes leading characters of [ws] while there are any; every encoding
    is at least one byte long, so [length l] rounds are enough. *)
Fixpoint lstrip_fuel (fuel : nat) (ws : list (list ascii)) (l : list ascii) : list ascii :=
  match fuel with
  | O => l
  | S fuel' =>
      match drop_one ws l with
      | Some rest => lstrip_fuel fuel' ws rest
      | None => l
      end
  end.

Definition lstrip_bytes (ws : list (list ascii)) (l : list ascii) : list ascii :=
  lstrip_fuel (length l) ws l.

(** [str.strip()]: leading whitespace, then trailing whitespace (the leading
    whitespace of the reversed bytes, matched against reversed encodings). *)
Definition py_strip (s : string) : string :=
  let l := lstrip_bytes py_whitespace (String.list_ascii_of_string s) in
  String.string_of_list_ascii (rev (lstrip_bytes (map (fun w => rev w) py_whitespace) (rev l))).

(** [mapping.get(c, c)] in [_major_risk_factor_text]. *)
Definition risk_label (c : string) : string :=
  if String.eqb c "worsening_delta" then "전주 대비 점수 상승"
  else if String.eqb c "severe_band" then "중증 구간"
  else if String.eqb c "high_composite" then "종합 점수 높음"
  else c.

(** The loop over [str(alert_reason_codes).split("|")]. *)
Definition code_reasons (codes : string) : list string :=
  fold_left (fun reasons code =>
      let c := py_strip code in
      if String.eqb c "" then reasons else reasons ++ [risk_label c])
    (split_bar codes) [].

(** [reasons] before de-duplication; [None] and [""] are falsy. *)
Definition risk_reasons (alert_reason_codes : option string) (total_score : Z)
    (severity : string) : list string :=
  let reasons := match alert_reason_codes with
                 | Some codes => if String.eqb codes "" then [] else code_reasons codes
                 | None => []
                 end in
  let reasons := if (15 <=? total_score)%Z then reasons ++ ["검사 총점 15점 이상"] else reasons in
  if String.eqb severity "" then reasons else reasons ++ ["심각도: " +:+ severity].

(** [if r not in unique: unique.append(r)] *)
Definition dedup_step (unique : list string) (r : string) : list string :=
  if bool_decide (r ∈ unique) then unique else unique ++ [r].

(** [_major_risk_factor_text] *)
Definition _major_risk_factor_text (alert_reason_codes : option string) (total_score : Z)
    (severity : string) : string :=
  let unique := fold_left dedup_step (risk_reasons alert_reason_codes total_score severity) [] in
  match unique with
  | [] => "고위험 규칙 조건 충족"
  | _ => String.concat ", " unique
  end.

(** What [list_admin_high_risk] reads from a user's dashboard: the scores
    and reason codes of the last row, all [None] (codes [""]) when there is
    no row. *)
Record HighRiskScores := {
  dep_score : option Q;
  anx_score : option Q;
  ins_score : option Q;
  composite_score : option Q;
  alert_codes : string
}.

Definition latest_scores (dashboard_rows : list WeeklyRecord) : HighRiskScores :=
  match last dashboard_rows with
  | Some latest => {|
      dep_score := Some (dep_week_pred_0_100 (wr_row latest));
      anx_score := Some (anx_week_pred_0_100 (wr_row latest));
      ins_score := Some (ins_week_pred_0_100 (wr_row latest));
      composite_score := Some (symptom_composite_pred_0_100 (wr_row latest));
      alert_codes := alert_reason_codes latest |}
  | None => {| dep_score := None; anx_score := None; ins_score := None;
               composite_score := None; alert_codes := "" |}
  end.

(** The [major_risk_factors] of one high-risk assessment row. *)
Definition major_risk_factors (dashboard_rows : list WeeklyRecord) (total_score : Z)
    (severity : string) : string :=
  _major_risk_factor_text (Some (alert_codes (latest_scores dashboard_rows))) total_score severity.

(** ** Names used by further properties *)

(** The order of the four severity buckets. *)
Definition severity_rank (s : string) : nat :=
  if String.eqb s "minimal" then 0
  else if String.eqb s "mild" then 1
  else if String.eqb s "moderate" then 2
  else 3.

(** The labels of the fired rules, in the order of the reason codes. *)
Definition fired_labels (r : WeeklyRecord) : list string :=
  map risk_label (fired_subset [Z.eqb (rule_week_delta_worsen r) 1;
                                Z.eqb (rule_any_severe r) 1;
                                Z.eqb (rule_composite_high r) 1]).

(** No byte of [s] is ["|"]. *)
Definition no_bar (s : string) : bool :=
  forallb (fun c => negb (Ascii.eqb c "|"%char)) (String.list_ascii_of_string s).

(** The dates of the input rows that create an entry of [day_data]. *)
Definition event_dates (checkins : list CheckIn) (chats : list ChatEvent)
    (assessments : list Assessment) : list Z :=
  map ci_date checkins ++ map ch_date (List.filter chat_touches chats) ++
  map as_date (List.filter is_phq9 assessments).


(** ** The [ins] column in binary64

    The model above adds exactly, so it is blind to the order of the
    values of a day.  Python adds floats with rounding, and the result of
    [sum] depends on the order of its summands.  This module follows the
    [ins] column of the dashboard in IEEE 754 binary64 arithmetic with
    round-to-nearest (Rocq's primitive floats): the [ins] of a day only
    depends on the day's lists [sleep_hours], [sleep_difficulty] and
    [challenge_completion_rate], and the weekly [ins_week_pred_0_100] only
    on the [ins] of the week's days.  [sum] is a parameter: its semantics
    changed in Python 3.12. *)
Module Float64.
Import PrimFloat.
#[local] Set Warnings "-inexact-float".
Local Open Scope float_scope.

(** [sum(values)] up to Python 3.11: [0 + x1 + x2 + ...], rounding after
    each addition. *)
Definition py_sum_naive (values : list float) : float := fold_left add values 0.

(** One round of the float loop of [sum] from Python 3.12 on (Neumaier's
    compensated summation): the running sum [f] and the compensation [c]. *)
Definition neumaier_step (acc : float * float) (x : float) : float * float :=
  let '(f, c) := acc in
  let t := f + x in
  let c := if abs x <=? abs f then c + ((f - t) + x) else c + ((x - t) + f) in
  (t, c).

(** [sum(values)] from Python 3.12 on: the first float is added to the
    integer start [0], the float loop takes the rest, and the compensation
    is added at the end when it is non-zero and finite. *)
Definition py_sum_compensated (values : list float) : float :=
  match values with
  | [] => 0
  | x :: rest =>
      let '(f, c) := fold_left neumaier_step rest (0 + x, 0) in
      if negb (c =? 0) && is_finite c then f + c else f
  end.

(** [len(values)] converted to a float by the division. *)
Definition py_len (values : list float) : float :=
  of_uint63 (Uint63.of_Z (Z.of_nat (length values))).

(** [_mean], for a given [sum]. *)
Definition _mean (py_sum : list float -> float) (values : list float) : option float :=
  match values with
  | [] => None
  | _ => Some (py_sum values / py_len values)
  end.

Definition py_min (a b : float) : float := if b <? a then b else a.
Definition py_max (a b : float) : float := if a <? b then b else a.

(** [_sleep_penalty] *)
Definition _sleep_penalty (sleep_hours : option float) : option float :=
  match sleep_hours with
  | None => None
  | Some h => Some (py_min 100.0 ((abs (h - 7.5) / 4.5) * 100.0))
  end.

(** [_weighted_score] *)
Definition weighted_step (acc : float * float) (pair : option float * float) : float * float :=
  let '(numer, denom) := acc in
  match pair with
  | (None, _) => acc
  | (Some value, weight) => (numer + value * weight, denom + weight)
  end.

Definition _weighted_score (pairs : list (option float * float)) : option float :=
  let '(numer, denom) := fold_left weighted_step pairs (0.0, 0.0) in
  if denom =? 0 then None else Some (numer / denom).

(** The [ins] of one day (source lines 175-228), from the day's lists
    [sleep_hours], [sleep_difficulty] and [challenge_completion_rate]. *)
Definition day_ins (py_sum : list float -> float)
    (sleep_hours sleep_difficulty challenge_completion_rate : list float) : float :=
  let sleep_hours := _mean py_sum sleep_hours in
  let sleep_diff := _mean py_sum sleep_difficulty in
  let challenge_completion := _mean py_sum challenge_completion_rate in
  let sleep_diff_scaled := match sleep_diff with None => None | Some v => Some (v * 10.0) end in
  let sleep_pen := _sleep_penalty sleep_hours in
  let ins := _weighted_score [(sleep_diff_scaled, 0.6); (sleep_pen, 0.4)] in
  let ins := match ins with Some v => v | None => 50.0 end in
  let ins := match challenge_completion with Some c => ins - c * 6.0 | None => ins end in
  let ins := py_max 0.0 (py_min 100.0 ins) in
  py_max 0.0 (py_min 100.0 ins).

(** [_mean([x["ins"] for x in items]) or 50.0] (source line 238): a mean
    of [0.0] is falsy. *)
Definition ins_week (py_sum : list float -> float) (day_ins_values : list float) : float :=
  match _mean py_sum day_ins_values with
  | Some v => if v =? 0 then 50.0 else v
  | None => 50.0
  end.

(** A week whose only rows are check-ins of one day with the given sleep
    hours, no note and no exercise: each check-in adds its hours and the
    challenge completion rate [0.0] to the day. *)
Definition one_day_ins_week (py_sum : list float -> float) (hours : list float) : float :=
  ins_week py_sum [day_ins py_sum hours [] (map (fun _ => 0.0) hours)].

End Float64.

Import (notations) PrimFloat.
(** Decimal literals denote the nearest double, as in Python. *)
#[local] Set Warnings "-inexact-float".

(** Two float literals differ when [PrimFloat.eqb] tells them apart. *)
Ltac float_neq :=
  let E := fresh "E" in
  intros E;
  match type of E with
  | ?a = ?b =>
      let F := fresh "F" in
      pose proof (f_equal (fun x => PrimFloat.eqb x b) E) as F;
      vm_compute in F; discriminate F
  end.

(** * Facts *)

(** ** The [defaultdict] grouping *)

Section GroupByFacts.
Context {A V : Type} (key : A -> Z) (touch : A -> bool) (contrib : A -> V)
  (vapp : V -> V -> V) (vnil : V).

(** The entry of date [d]: absent when it was absent and no row hits it,
    otherwise the old entry with the contributions of the hitting rows
    appended in order. *)
Lemma group_by_lookup (l : list A) (m : gmap Z V) (d : Z) :
  group_by key touch contrib vapp vnil l m !! d =
  match m !! d, List.filter (hits key touch d) l with
  | None, [] => None
  | o, xs => Some (fold_contrib contrib vapp xs (default vnil o))
  end.
Proof.
  induction l as [|x l IH] in m |- *; simpl.
  - destruct (m !! d); reflexivity.
  - unfold group_by in *. simpl. rewrite IH. unfold group_push, hits.
    destruct (touch x) eqn:Ht; simpl; [|reflexivity].
    case_bool_decide as Hk.
    + subst d. rewrite lookup_insert_eq. simpl.
      destruct (List.filter _ l), (m !! key x); reflexivity.
    + rewrite lookup_insert_ne by congruence. reflexivity.
Qed.

Lemma group_by_dom (l : list A) (m : gmap Z V) (d : Z) :
  d ∈ dom (group_by key touch contrib vapp vnil l m) <->
  d ∈ dom m \/ List.filter (hits key touch d) l <> [].
Proof.
  rewrite !elem_of_dom, group_by_lookup.
  destruct (m !! d), (List.filter (hits key touch d) l); simpl;
    split; intros H; try done; eauto; try (left; done).
  destruct H as [H|H]; [by destruct H | done].
Qed.

End GroupByFacts.

(** ** Order of the output *)

Lemma Sorted_le_NoDup_lt (l : list Z) : Sorted Z.le l -> NoDup l -> Sorted Z.lt l.
Proof.
  induction l as [|a l IH]; intros Hs Hn; [constructor|].
  apply Sorted_inv in Hs as [Hs Hh]. apply NoDup_cons in Hn as [Ha Hn].
  constructor; [apply IH; assumption|].
  destruct l as [|b l]; constructor.
  apply HdRel_inv in Hh. assert (a <> b) by (intros ->; apply Ha; left). lia.
Qed.

Lemma sorted_keys_sorted {V} (m : gmap Z V) : Sorted Z.lt (sorted_keys m).
Proof.
  unfold sorted_keys. apply Sorted_le_NoDup_lt.
  - apply (Sorted_merge_sort Z.le).
  - rewrite (merge_sort_Permutation Z.le). apply NoDup_elements.
Qed.

Lemma sorted_keys_elem {V} (m : gmap Z V) (d : Z) : d ∈ sorted_keys m <-> d ∈ dom m.
Proof.
  unfold sorted_keys. rewrite (merge_sort_Permutation Z.le). apply elem_of_elements.
Qed.

Lemma sorted_keys_NoDup {V} (m : gmap Z V) : NoDup (sorted_keys m).
Proof.
  unfold sorted_keys. rewrite (merge_sort_Permutation Z.le). apply NoDup_elements.
Qed.

Lemma alert_loop_rows a b c (rows : list WeekRow) : map wr_row (alert_loop a b c rows) = rows.
Proof.
  induction rows as [|r rows IH] in a, b, c |- *; simpl; [done|]. rewrite IH. reflexivity.
Qed.

Lemma weekly_rows_dates (s : list DayScore) :
  map week_start_date (weekly_rows s) = sorted_keys (weekly_buckets s).
Proof. unfold weekly_rows. rewrite map_map. simpl. apply map_id. Qed.

Lemma dashboard_sorted ci ch as_ :
  Sorted Z.lt (map (fun r => week_start_date (wr_row r)) (build_user_weekly_dashboard ci ch as_)).
Proof.
  unfold build_user_weekly_dashboard.
  case_decide; [constructor|].
  rewrite <- (map_map wr_row week_start_date). unfold _apply_alert_rules.
  rewrite alert_loop_rows, weekly_rows_dates. apply sorted_keys_sorted.
Qed.

(** ** Week buckets *)

Lemma fold_contrib_singletons {A} (xs : list A) (v : list A) :
  fold_contrib (fun r => [r]) (@app A) xs v = v ++ xs.
Proof.
  induction xs as [|x xs IH] in v |- *; simpl; [by rewrite app_nil_r|].
  unfold fold_contrib in *. rewrite IH, <- app_assoc. reflexivity.
Qed.

(** The bucket of a week start present in [weekly] holds exactly the day
    scores of that week, in order. *)
Lemma weekly_buckets_lookup (s : list DayScore) (ws : Z) :
  ws ∈ dom (weekly_buckets s) ->
  weekly_buckets s !! ws =
    Some (List.filter (hits (fun r => week_start (sc_date r)) (fun _ => true) ws) s) /\
  List.filter (hits (fun r => week_start (sc_date r)) (fun _ => true) ws) s <> [].
Proof.
  unfold weekly_buckets. rewrite group_by_dom, group_by_lookup, lookup_empty.
  rewrite dom_empty_L. intros [H|H]; [set_solver|].
  destruct (List.filter _ s) eqn:Hf; [done|].
  split; [|done]. simpl. rewrite fold_contrib_singletons. reflexivity.
Qed.

Lemma weekly_rows_elem (s : list DayScore) (row : WeekRow) :
  In row (weekly_rows s) ->
  exists ws, ws ∈ dom (weekly_buckets s) /\
    row = week_row ws (List.filter (hits (fun r => week_start (sc_date r)) (fun _ => true) ws) s) /\
    List.filter (hits (fun r => week_start (sc_date r)) (fun _ => true) ws) s <> [].
Proof.
  unfold weekly_rows. intros Hin. apply in_map_iff in Hin as [ws [<- Hws]].
  apply list_elem_of_In, sorted_keys_elem in Hws.
  destruct (weekly_buckets_lookup s ws Hws) as [Hl Hne].
  exists ws. rewrite Hl. simpl. auto.
Qed.

Lemma signals_loop_dates m c days : map ds_date (signals_loop m c days) = days.
Proof.
  induction days as [|d days IH] in c |- *; simpl; [done|]. rewrite IH. reflexivity.
Qed.

Lemma score_signal_date s : sc_date (score_signal s) = ds_date s.
Proof. unfold score_signal. destruct (proxy_preclip s) as [[dep anx] ins]. reflexivity. Qed.

Lemma day_scores_dates m : map sc_date (day_scores m) = sorted_keys m.
Proof.
  unfold day_scores. rewrite map_map.
  rewrite (map_ext _ ds_date) by apply score_signal_date.
  apply signals_loop_dates.
Qed.

Lemma NoDup_map_filter {A B} (f : A -> B) (p : A -> bool) (l : list A) :
  NoDup (map f l) -> NoDup (map f (List.filter p l)).
Proof.
  induction l as [|x l IH]; simpl; intros Hn; [constructor|].
  apply NoDup_cons in Hn as [Hx Hn].
  destruct (p x); simpl; [|auto].
  constructor; [|auto].
  rewrite list_elem_of_In in *. intros Hin. apply Hx.
  apply in_map_iff in Hin as [y [Hy Hy']]. apply filter_In in Hy' as [Hy' _].
  rewrite <- Hy. apply in_map, Hy'.
Qed.

(** Distinct days with one week start are at most seven. *)
Lemma week_members_bound (ws : Z) (ds : list Z) :
  NoDup ds -> (forall d, In d ds -> week_start d = ws) -> (length ds <= 7)%nat.
Proof.
  intros Hn Hw.
  replace 7%nat with (length (seqZ ws 7)) by (rewrite length_seqZ; reflexivity).
  apply NoDup_incl_length.
  - apply NoDup_ListNoDup, Hn.
  - intros d Hd. apply list_elem_of_In, elem_of_seqZ.
    specialize (Hw d Hd). unfold week_start, weekday in Hw.
    pose proof (Z.mod_pos_bound (d + 6) 7 ltac:(lia)). lia.
Qed.

(** ** Alert rules *)

Lemma Qltb_iff (a b : Q) : Qltb a b = true <-> a < b.
Proof.
  unfold Qltb. rewrite negb_true_iff. split; intros H.
  - apply Qnot_le_lt. intros Hle. apply Qle_bool_iff in Hle. congruence.
  - destruct (Qle_bool b a) eqn:E; [|reflexivity].
    apply Qle_bool_iff in E. exfalso. apply (Qlt_not_le a b); assumption.
Qed.

Lemma severity_severe_iff (x : Q) : _severity_bucket x = "severe" <-> 75 <= x.
Proof.
  unfold _severity_bucket.
  destruct (Qltb x 25) eqn:E1; [apply Qltb_iff in E1; split; [discriminate|lra]|].
  destruct (Qltb x 50) eqn:E2; [apply Qltb_iff in E2; split; [discriminate|lra]|].
  destruct (Qltb x 75) eqn:E3; [apply Qltb_iff in E3; split; [discriminate|lra]|].
  split; [|reflexivity]. intros _. apply Qnot_lt_le. intros H.
  apply Qltb_iff in H. congruence.
Qed.

Lemma jump_iff (d : option Q) : jump d = true <-> exists x, d = Some x /\ 5 <= x.
Proof.
  unfold jump. rewrite Qle_bool_iff. destruct d as [x|]; split.
  - destruct (Qeq_bool x 0) eqn:E; intros H; [lra|eauto].
  - intros [y [[= <-] Hy]]. destruct (Qeq_bool x 0) eqn:E; [|exact Hy].
    apply Qeq_bool_iff in E. lra.
  - intros H. lra.
  - intros [y [H _]]. discriminate.
Qed.

Lemma existsb_severe (a b c : string) :
  existsb (fun x => String.eqb x "severe") [a; b; c] = true <->
  a = "severe" \/ b = "severe" \/ c = "severe".
Proof.
  simpl. rewrite !orb_true_iff, !String.eqb_eq. intuition discriminate.
Qed.

Lemma alert_loop_elem a b c (rows : list WeekRow) (r : WeeklyRecord) :
  In r (alert_loop a b c rows) ->
  exists a' b' c' row, In row rows /\ r = alert_row a' b' c' row.
Proof.
  induction rows as [|row rows IH] in a, b, c |- *; simpl; [intros []|].
  intros [<-|H].
  - exists a, b, c, row. auto.
  - destruct (IH _ _ _ H) as (a' & b' & c' & row' & Hin & ->).
    exists a', b', c', row'. auto.
Qed.

Lemma alert_loop_length a b c (rows : list WeekRow) : length (alert_loop a b c rows) = length rows.
Proof. induction rows in a, b, c |- *; simpl; auto. Qed.

Lemma alert_loop_nth0 a b c (row : WeekRow) rows :
  nth_error (alert_loop a b c (row :: rows)) 0 = Some (alert_row a b c row).
Proof. reflexivity. Qed.

Lemma alert_loop_nthS a b c (rows : list WeekRow) (j : nat) :
  nth_error (alert_loop a b c rows) (S j) =
  match nth_error rows j, nth_error rows (S j) with
  | Some p, Some row =>
      Some (alert_row (Some (dep_week_pred_0_100 p)) (Some (anx_week_pred_0_100 p))
              (Some (ins_week_pred_0_100 p)) row)
  | _, _ => None
  end.
Proof.
  induction rows as [|x rows IH] in a, b, c, j |- *; [destruct j; reflexivity|].
  destruct j as [|j].
  - destruct rows as [|y rows]; reflexivity.
  - change (nth_error (alert_loop (Some (dep_week_pred_0_100 x)) (Some (anx_week_pred_0_100 x))
              (Some (ins_week_pred_0_100 x)) rows) (S j) =
            match nth_error rows j, nth_error rows (S j) with
            | Some p, Some row =>
                Some (alert_row (Some (dep_week_pred_0_100 p)) (Some (anx_week_pred_0_100 p))
                        (Some (ins_week_pred_0_100 p)) row)
            | _, _ => None
            end).
    apply IH.
Qed.

Lemma jump3_iff (da db dc : option Q) :
  (jump da || jump db || jump dc) = true <->
  exists x, (da = Some x \/ db = Some x \/ dc = Some x) /\ 5 <= x.
Proof.
  rewrite !orb_true_iff, !jump_iff. split.
  - intros [ [ [x [-> Hx] ] | [x [-> Hx] ] ] | [x [-> Hx] ] ]; eauto 6.
  - intros [x [ [-> | [-> | ->] ] Hx] ]; eauto 6.
Qed.

Lemma alert_row_spec a b c (row : WeekRow) : rules_spec (alert_row a b c row).
Proof.
  unfold rules_spec, alert_row. cbn [wr_row rule_week_delta_worsen rule_any_severe
    rule_composite_high alert_risk_score alert_flag alert_level dep_week_delta
    anx_week_delta ins_week_delta dep_severity anx_severity ins_severity].
  pose proof (jump3_iff (delta a (dep_week_pred_0_100 row)) (delta b (anx_week_pred_0_100 row))
    (delta c (ins_week_pred_0_100 row))) as H1.
  pose proof (existsb_severe (_severity_bucket (dep_week_pred_0_100 row))
    (_severity_bucket (anx_week_pred_0_100 row)) (_severity_bucket (ins_week_pred_0_100 row))) as H2.
  assert (H2b := H2). rewrite !severity_severe_iff in H2b.
  pose proof (Qle_bool_iff 65 (symptom_composite_pred_0_100 row)) as H3.
  destruct (jump _ || jump _ || jump _), (existsb _ _), (Qle_bool 65 _);
    rewrite <- ?H1, <- ?H2, <- ?H2b, <- ?H3; simpl;
    repeat split; intros; try discriminate; try lia; try reflexivity; lia.
Qed.

(** ** Daily proxy scores *)

Lemma py_min_spec (a b : Q) : py_min a b <= a /\ (py_min a b = a \/ py_min a b = b).
Proof.
  unfold py_min. destruct (Qltb b a) eqn:E; [apply Qltb_iff in E|]; split; auto; lra.
Qed.

Lemma py_max_spec (a b : Q) : a <= py_max a b /\ (py_max a b = a \/ py_max a b = b).
Proof.
  unfold py_max. destruct (Qltb a b) eqn:E; [apply Qltb_iff in E|]; split; auto; lra.
Qed.

Lemma clip_bounds (x : Q) : 0 <= clip x <= 100.
Proof.
  unfold clip.
  destruct (py_min_spec 100.0 x) as [H1 _].
  destruct (py_max_spec 0.0 (py_min 100.0 x)) as [H2 [H3|H3]]; rewrite H3 in *; lra.
Qed.

Lemma weighted_fold (pairs : list (option Q * Q)) (n d : Q) :
  fst (fold_left weighted_step pairs (n, d)) == n + sum_value_weight (defined_terms pairs) /\
  snd (fold_left weighted_step pairs (n, d)) == d + sum_weight (defined_terms pairs).
Proof.
  induction pairs as [|[[v|] w] pairs IH] in n, d |- *; simpl.
  - split; ring.
  - destruct (IH (n + v * w) (d + w)) as [H1 H2]. rewrite H1, H2. simpl. split; ring.
  - destruct (IH n d) as [H1 H2]. rewrite H1, H2. split; reflexivity.
Qed.

Lemma sum_weight_pos (ts : list (Q * Q)) :
  Forall (fun p => 0 < snd p) ts -> ts <> [] -> 0 < sum_weight ts.
Proof.
  induction ts as [|t ts IH]; intros Hf Hne; [done|].
  inversion Hf as [|? ? Ht Hts]; subst. simpl.
  destruct ts as [|t' ts]; simpl in *; [lra|].
  assert (0 < sum_weight (t' :: ts)) by (apply IH; [assumption|done]). simpl in *. lra.
Qed.

Lemma defined_terms_pos (terms : list (option Q * Q)) :
  Forall (fun p => 0 < snd p) terms -> Forall (fun p => 0 < snd p) (defined_terms terms).
Proof.
  induction terms as [|[[v|] w] terms IH]; intros Hf; simpl; [constructor| |];
    inversion Hf; subst; auto.
Qed.

(** [_weighted_score] with positive weights, defaulted to [50.0], is the
    spec's blend. *)
Lemma weighted_score_spec (terms : list (option Q * Q)) :
  Forall (fun p => 0 < snd p) terms -> default_50 (_weighted_score terms) == spec_blend terms.
Proof.
  intros Hpos. unfold _weighted_score, spec_blend.
  destruct (weighted_fold terms 0 0) as [H1 H2].
  destruct (fold_left weighted_step terms (0, 0)) as [numer denom]. simpl in H1, H2.
  pose proof (sum_weight_pos _ (defined_terms_pos _ Hpos)) as Hw.
  destruct (defined_terms terms) as [|t ts] eqn:Ed.
  - simpl in H2. assert (Hd : Qeq_bool denom 0 = true) by (apply Qeq_bool_iff; lra).
    rewrite Hd. reflexivity.
  - assert (Hp : 0 < sum_weight (t :: ts)) by (apply Hw; discriminate).
    destruct (Qeq_bool denom 0) eqn:Hd; [apply Qeq_bool_iff in Hd; lra|].
    simpl. rewrite H1, H2, !Qplus_0_l. reflexivity.
Qed.
(** ** The carried questionnaire *)

Lemma signals_loop_carry (m : gmap Z DayData) c days i s :
  nth_error (signals_loop m c days) i = Some s ->
  ds_carried_phq s = fold_left (fun acc d => next_carry (day_phq m d) acc) (firstn (S i) days) c.
Proof.
  induction days as [|d days IH] in c, i |- *; [destruct i; discriminate|].
  destruct i as [|i]; cbn [signals_loop nth_error].
  - intros [= <-]. reflexivity.
  - intros H. apply IH in H. rewrite H. reflexivity.
Qed.

Lemma carry_fold_none (m : gmap Z DayData) l c :
  Forall (fun d => day_phq m d = None) l ->
  fold_left (fun acc d => next_carry (day_phq m d) acc) l c = c.
Proof.
  induction 1 as [|d l Hd Hl IH] in c |- *; simpl; [reflexivity|].
  rewrite Hd. apply IH.
Qed.

Lemma carry_fold_last (m : gmap Z DayData) pre dj post p c :
  day_phq m dj = Some p -> Forall (fun d => day_phq m d = None) post ->
  fold_left (fun acc d => next_carry (day_phq m d) acc) (pre ++ dj :: post) c =
  Some ((p / 27.0) * 100.0).
Proof.
  intros Hp Hpost. rewrite fold_left_app. simpl. rewrite Hp.
  apply carry_fold_none, Hpost.
Qed.

Lemma firstn_S_nth_error {A} (l : list A) n x :
  nth_error l n = Some x -> firstn (S n) l = firstn n l ++ [x].
Proof.
  induction l as [|y l IH] in n |- *; [destruct n; discriminate|].
  destruct n as [|n]; simpl; [intros [= ->]; reflexivity|].
  intros H. rewrite (IH n H). reflexivity.
Qed.

(** * Claims *)

(** C9: the weekly records depend on the order of the rows of a day.
    Three check-ins of one day, with no note and not exercised, no chats
    and no assessments, with sleep hours 5.5, 6.1 and 7.7: with [sum] as
    in Python 3.11 and earlier, [ins_week_pred_0_100] is
    23.703703703703695 in that order and 23.70370370370372 with the last
    two swapped.  With the compensated [sum] of Python 3.12 and later,
    sleep hours 1e17, -1e17, 6.1, 5.5, 7.7 give 80.88888888888886 and the
    order 1e17, 5.5, 7.7, -1e17, 6.1 gives 80.8888888888889 (100.0 with
    the older [sum]). *)
Theorem same_day_row_order_changes_ins_week :
  Float64.one_day_ins_week Float64.py_sum_naive [5.5; 6.1; 7.7]%float = 23.703703703703695%float /\
  Float64.one_day_ins_week Float64.py_sum_naive [5.5; 7.7; 6.1]%float = 23.70370370370372%float /\
  23.703703703703695%float <> 23.70370370370372%float /\
  Float64.one_day_ins_week Float64.py_sum_compensated [1e17; -1e17; 6.1; 5.5; 7.7]%float =
    80.88888888888886%float /\
  Float64.one_day_ins_week Float64.py_sum_compensated [1e17; 5.5; 7.7; -1e17; 6.1]%float =
    80.8888888888889%float /\
  80.88888888888886%float <> 80.8888888888889%float /\
  Float64.one_day_ins_week Float64.py_sum_naive [1e17; -1e17; 6.1; 5.5; 7.7]%float =
    80.88888888888886%float /\
  Float64.one_day_ins_week Float64.py_sum_naive [1e17; 5.5; 7.7; -1e17; 6.1]%float = 100%float.
Proof.
  repeat split; first [vm_compute; reflexivity | float_neq].
Qed.


(** C10: every emitted weekly record has between 1 and 7 active days. *)
Theorem active_days_between_1_and_7 ci ch as_ (r : WeeklyRecord) :
  In r (build_user_weekly_dashboard ci ch as_) -> (1 <= active_days (wr_row r) <= 7)%nat.
Proof.
  unfold build_user_weekly_dashboard. case_decide as Hempty; [intros []|].
  set (m := build_day_data ci ch _). unfold _apply_alert_rules. intros Hin.
  assert (Hrow : In (wr_row r) (weekly_rows (day_scores m))).
  { rewrite <- (alert_loop_rows None None None). apply in_map, Hin. }
  apply weekly_rows_elem in Hrow as (ws & _ & -> & Hne).
  simpl. set (items := List.filter _ (day_scores m)) in *.
  split.
  - destruct items; [done | simpl; lia].
  - rewrite <- (length_map sc_date items). apply (week_members_bound ws).
    + apply NoDup_map_filter. rewrite day_scores_dates. apply sorted_keys_NoDup.
    + intros d Hd. apply in_map_iff in Hd as [x [<- Hx]].
      apply filter_In in Hx as [_ Hx]. unfold hits in Hx. simpl in Hx.
      apply bool_decide_eq_true in Hx. exact Hx.
Qed.

(** C5: every weekly record's rule flags are 0/1 values with the stated
    triggers (a defined delta of at least 5; a weekly score of at least 75,
    that is a severe bucket; a composite of at least 65), its risk score is
    [1*rd + 2*rs + 2*rc], its flag is set iff the score is at least 2 and
    its level is "high" from 4, "medium" on [2,4) and "low" below 2. *)
Theorem alert_score_flag_level (rows : list WeekRow) (r : WeeklyRecord) :
  In r (_apply_alert_rules rows) -> rules_spec r.
Proof.
  intros Hin. apply alert_loop_elem in Hin as (a & b & c & row & _ & ->).
  apply alert_row_spec.
Qed.

(** C2: the reason codes of every weekly record are the ordered subset of
    [["worsening_delta"; "severe_band"; "high_composite"]] whose rules
    fired, stored joined by "|" (splitting on "|", as the admin view does,
    gives the list back), and empty exactly when no rule fires. *)
Theorem reason_codes_ordered_subset (rows : list WeekRow) (r : WeeklyRecord) :
  In r (_apply_alert_rules rows) ->
  let fired := fired_subset [Z.eqb (rule_week_delta_worsen r) 1;
                             Z.eqb (rule_any_severe r) 1;
                             Z.eqb (rule_composite_high r) 1] in
  alert_reason_codes r = String.concat "|" fired /\
  (fired <> [] -> split_bar (alert_reason_codes r) = fired) /\
  (alert_reason_codes r = "" <->
     (rule_week_delta_worsen r = 0 /\ rule_any_severe r = 0 /\ rule_composite_high r = 0)%Z).
Proof.
  intros Hin. apply alert_loop_elem in Hin as (a & b & c & row & _ & ->).
  unfold alert_row. cbn [alert_reason_codes rule_week_delta_worsen rule_any_severe
    rule_composite_high].
  destruct (jump _ || jump _ || jump _), (existsb _ _), (Qle_bool 65 _);
    vm_compute; repeat split; intros; try discriminate; try reflexivity;
    try contradiction; intuition discriminate.
Qed.

(** C6: the alert rules give one record per row; the first record has no
    deltas (and so no worsening rule), every later record's deltas are its
    weekly scores minus those of the row just before it, and the worsening
    rule only fires on a defined delta of at least 5. *)
Theorem alert_rules_deltas (rows : list WeekRow) :
  length (_apply_alert_rules rows) = length rows /\
  (forall r row, nth_error (_apply_alert_rules rows) 0 = Some r -> nth_error rows 0 = Some row ->
     wr_row r = row /\ dep_week_delta r = None /\ anx_week_delta r = None /\
     ins_week_delta r = None /\ rule_week_delta_worsen r = 0%Z) /\
  (forall j r prev row, nth_error (_apply_alert_rules rows) (S j) = Some r ->
     nth_error rows j = Some prev -> nth_error rows (S j) = Some row ->
     wr_row r = row /\
     dep_week_delta r = Some (dep_week_pred_0_100 row - dep_week_pred_0_100 prev) /\
     anx_week_delta r = Some (anx_week_pred_0_100 row - anx_week_pred_0_100 prev) /\
     ins_week_delta r = Some (ins_week_pred_0_100 row - ins_week_pred_0_100 prev)) /\
  (forall r, In r (_apply_alert_rules rows) -> rule_week_delta_worsen r = 1%Z ->
     exists x, (dep_week_delta r = Some x \/ anx_week_delta r = Some x \/
                ins_week_delta r = Some x) /\ 5 <= x).
Proof.
  unfold _apply_alert_rules. split; [apply alert_loop_length|]. split; [|split].
  - intros r row Hr Hrow. destruct rows as [|x rows]; [discriminate|].
    simpl in Hrow. injection Hrow as <-. rewrite alert_loop_nth0 in Hr.
    injection Hr as <-. repeat split.
  - intros j r prev row Hr Hp Hrow. rewrite alert_loop_nthS, Hp, Hrow in Hr.
    injection Hr as <-. repeat split.
  - intros r Hin Hrd. apply alert_loop_elem in Hin as (a & b & c & row & _ & ->).
    pose proof (alert_row_spec a b c row) as [[_ H] _]. apply H, Hrd.
Qed.

(** C3: each blend is the weighted mean over its defined terms with the
    weights renormalised over those terms (dep: carried questionnaire 0.45,
    mood inverse 0.25, rumination 0.2, distortion 0.1; anx: distress 0.45,
    rumination 0.25, mood inverse 0.2, distortion 0.1; ins: sleep
    difficulty 0.6, sleep penalty 0.4), and [50.0] when no term is
    defined. *)
Theorem blends_renormalised (s : DailySignal) :
  blend_dep s == spec_blend [(ds_carried_phq s, 0.45); (mood_inverse s, 0.25);
                             (rum_scaled s, 0.2); (distortion_scaled s, 0.1)] /\
  blend_anx s == spec_blend [(distress_scaled s, 0.45); (rum_scaled s, 0.25);
                             (mood_inverse s, 0.2); (distortion_scaled s, 0.1)] /\
  blend_ins s == spec_blend [(sleep_diff_scaled s, 0.6); (sleep_pen s, 0.4)] /\
  (ds_carried_phq s = None -> mood_inverse s = None -> rum_scaled s = None ->
   distortion_scaled s = None -> blend_dep s = 50.0) /\
  (distress_scaled s = None -> rum_scaled s = None -> mood_inverse s = None ->
   distortion_scaled s = None -> blend_anx s = 50.0) /\
  (sleep_diff_scaled s = None -> sleep_pen s = None -> blend_ins s = 50.0).
Proof.
  unfold blend_dep, blend_anx, blend_ins, proxy_blend. simpl fst; simpl snd.
  split; [apply weighted_score_spec; repeat constructor|].
  split; [apply weighted_score_spec; repeat constructor|].
  split; [apply weighted_score_spec; repeat constructor|].
  unfold dep_pairs, anx_pairs, ins_pairs.
  split; [intros H1 H2 H3 H4; rewrite H1, H2, H3, H4; reflexivity|].
  split; [intros H1 H2 H3 H4; rewrite H1, H2, H3, H4; reflexivity|].
  intros H1 H2; rewrite H1, H2; reflexivity.
Qed.

Lemma proxy_blend_with_challenge (c : option Q) (s : DailySignal) :
  proxy_blend (with_challenge c s) = proxy_blend s.
Proof. reflexivity. Qed.

Lemma score_signal_fields (s : DailySignal) :
  sc_dep (score_signal s) = clip (clip (preclip_dep s)) /\
  sc_anx (score_signal s) = clip (clip (preclip_anx s)) /\
  sc_ins (score_signal s) = clip (clip (preclip_ins s)).
Proof.
  unfold score_signal, preclip_dep, preclip_anx, preclip_ins.
  destruct (proxy_preclip s) as [[dep anx] ins]. auto.
Qed.

(** C7: a completion rate of 1.0 rather than 0.0 lowers the pre-clip dep,
    anx and ins by exactly 12, 10 and 6; in general the rate [c] subtracts
    [12c], [10c], [6c] from the blended values, no rate subtracts nothing,
    and the clip is applied to the adjusted values. *)
Theorem challenge_adjustment (s : DailySignal) :
  preclip_dep (with_challenge (Some 1.0) s) == preclip_dep (with_challenge (Some 0.0) s) - 12 /\
  preclip_anx (with_challenge (Some 1.0) s) == preclip_anx (with_challenge (Some 0.0) s) - 10 /\
  preclip_ins (with_challenge (Some 1.0) s) == preclip_ins (with_challenge (Some 0.0) s) - 6 /\
  (forall c, preclip_dep (with_challenge (Some c) s) = blend_dep s - c * 12.0 /\
             preclip_anx (with_challenge (Some c) s) = blend_anx s - c * 10.0 /\
             preclip_ins (with_challenge (Some c) s) = blend_ins s - c * 6.0) /\
  (preclip_dep (with_challenge None s) = blend_dep s /\
   preclip_anx (with_challenge None s) = blend_anx s /\
   preclip_ins (with_challenge None s) = blend_ins s) /\
  (sc_dep (score_signal s) = clip (clip (preclip_dep s)) /\
   sc_anx (score_signal s) = clip (clip (preclip_anx s)) /\
   sc_ins (score_signal s) = clip (clip (preclip_ins s))).
Proof.
  assert (Hc : forall c, proxy_preclip (with_challenge c s) =
    match c with
    | Some c => (blend_dep s - c * 12.0, blend_anx s - c * 10.0, blend_ins s - c * 6.0)
    | None => (blend_dep s, blend_anx s, blend_ins s)
    end).
  { intros c. unfold proxy_preclip. rewrite proxy_blend_with_challenge.
    unfold blend_dep, blend_anx, blend_ins.
    destruct (proxy_blend s) as [[dep anx] ins]. reflexivity. }
  split; [unfold preclip_dep; rewrite !Hc; simpl; ring|].
  split; [unfold preclip_anx; rewrite !Hc; simpl; ring|].
  split; [unfold preclip_ins; rewrite !Hc; simpl; ring|].
  split; [intros c; unfold preclip_dep, preclip_anx, preclip_ins; rewrite Hc; auto|].
  split; [unfold preclip_dep, preclip_anx, preclip_ins; rewrite Hc; auto|].
  apply score_signal_fields.
Qed.

(** C8: whatever its inputs, a day's dep, anx and ins lie in [0, 100]. *)
Theorem daily_scores_in_range (s : DailySignal) :
  (0 <= sc_dep (score_signal s) <= 100) /\ (0 <= sc_anx (score_signal s) <= 100) /\
  (0 <= sc_ins (score_signal s) <= 100).
Proof.
  destruct (score_signal_fields s) as (-> & -> & ->).
  split; [|split]; apply clip_bounds.
Qed.

(** C4: on the days of [day_data] in ascending order, the carried
    questionnaire of a day is [(mean / 27.0) * 100.0] for the mean of the
    latest day at or before it with a PHQ-9 assessment, is undefined while
    no such day has been seen, and is unchanged from the previous day on a
    day without an assessment. *)
Theorem carried_questionnaire (day_data : gmap Z DayData) (i : nat) (s : DailySignal) :
  nth_error (signals_loop day_data None (sorted_keys day_data)) i = Some s ->
  (forall pre dj post p, firstn (S i) (sorted_keys day_data) = pre ++ dj :: post ->
     day_phq day_data dj = Some p -> Forall (fun d => day_phq day_data d = None) post ->
     ds_carried_phq s = Some ((p / 27.0) * 100.0)) /\
  (Forall (fun d => day_phq day_data d = None) (firstn (S i) (sorted_keys day_data)) ->
     ds_carried_phq s = None) /\
  (forall i' s' d, i = S i' ->
     nth_error (signals_loop day_data None (sorted_keys day_data)) i' = Some s' ->
     nth_error (sorted_keys day_data) i = Some d -> day_phq day_data d = None ->
     ds_carried_phq s = ds_carried_phq s').
Proof.
  intros Hs. pose proof (signals_loop_carry _ _ _ _ _ Hs) as Hc.
  split; [|split].
  - intros pre dj post p Hsplit Hp Hpost. rewrite Hc, Hsplit.
    apply carry_fold_last; assumption.
  - intros Hnone. rewrite Hc. apply carry_fold_none, Hnone.
  - intros i' s' d -> Hs' Hd Hnone. rewrite Hc, (signals_loop_carry _ _ _ _ _ Hs').
    rewrite (firstn_S_nth_error _ _ _ Hd), fold_left_app. simpl.
    rewrite Hnone. reflexivity.
Qed.

(** C1 (a day whose dep is 0 gives a weekly dep of 50): one check-in with
    mood 10 on Tuesday 2024-01-02, nothing else.  The day's dep is 0, the
    only member of its week, yet [_mean(...) or 50.0] reports the week's
    [dep_week_pred_0_100] as 50, since the mean [0.0] is falsy. *)
Theorem weekly_zero_mean_reported_as_50 :
  (exists x, map sc_dep (day_scores (build_day_data
       [plain_checkin (monday_2024_01_01 + 1) 10] [] [])) = [x] /\ x == 0) /\
  (exists r, build_user_weekly_dashboard [plain_checkin (monday_2024_01_01 + 1) 10] [] [] = [r] /\
     week_start_date (wr_row r) = monday_2024_01_01 /\ active_days (wr_row r) = 1%nat /\
     dep_week_pred_0_100 (wr_row r) == 50).
Proof.
  split; eexists; split.
  - vm_compute. reflexivity.
  - reflexivity.
  - vm_compute. reflexivity.
  - vm_compute. split; [reflexivity|split; reflexivity].
Qed.

(** The spec's alert example, evaluated. *)
Example alert_sample_levels :
  map alert_level (_apply_alert_rules alert_sample_rows) = ["high"; "low"] /\
  map alert_reason_codes (_apply_alert_rules alert_sample_rows) =
    ["severe_band|high_composite"; "worsening_delta"] /\
  map alert_risk_score (_apply_alert_rules alert_sample_rows) = [4%Z; 1%Z] /\
  map alert_flag (_apply_alert_rules alert_sample_rows) = [1%Z; 0%Z].
Proof. vm_compute. repeat split. Qed.


Lemma active_days_between_1_and_7_witness :
  exists r, In r (build_user_weekly_dashboard
    [plain_checkin monday_2024_01_01 4; plain_checkin (monday_2024_01_01 + 2) 5;
     plain_checkin (monday_2024_01_01 + 6) 6] [] []) /\
  (1 <= active_days (wr_row r) <= 7)%nat.
Proof.
  eexists.
  assert (H : In _ (build_user_weekly_dashboard
    [plain_checkin monday_2024_01_01 4; plain_checkin (monday_2024_01_01 + 2) 5;
     plain_checkin (monday_2024_01_01 + 6) 6] [] [])) by (vm_compute; left; reflexivity).
  split; [exact H | exact (active_days_between_1_and_7 _ _ _ _ H)].
Defined.

Lemma alert_score_flag_level_witness :
  exists r, In r (_apply_alert_rules alert_sample_rows) /\ rules_spec r.
Proof.
  eexists.
  assert (H : In _ (_apply_alert_rules alert_sample_rows)) by (vm_compute; left; reflexivity).
  split; [exact H | exact (alert_score_flag_level _ _ H)].
Defined.

Lemma reason_codes_ordered_subset_witness :
  exists r, In r (_apply_alert_rules alert_sample_rows) /\
  let fired := fired_subset [Z.eqb (rule_week_delta_worsen r) 1;
                             Z.eqb (rule_any_severe r) 1;
                             Z.eqb (rule_composite_high r) 1] in
  alert_reason_codes r = String.concat "|" fired /\
  (fired <> [] -> split_bar (alert_reason_codes r) = fired) /\
  (alert_reason_codes r = "" <->
     (rule_week_delta_worsen r = 0 /\ rule_any_severe r = 0 /\ rule_composite_high r = 0)%Z).
Proof.
  eexists.
  assert (H : In _ (_apply_alert_rules alert_sample_rows)) by (vm_compute; left; reflexivity).
  split; [exact H | exact (reason_codes_ordered_subset _ _ H)].
Defined.

Lemma carried_questionnaire_witness :
  exists s, nth_error (signals_loop carry_sample_day_data None
                         (sorted_keys carry_sample_day_data)) 2 = Some s /\
  ((forall pre dj post p, firstn 3 (sorted_keys carry_sample_day_data) = pre ++ dj :: post ->
     day_phq carry_sample_day_data dj = Some p ->
     Forall (fun d => day_phq carry_sample_day_data d = None) post ->
     ds_carried_phq s = Some ((p / 27.0) * 100.0)) /\
  (Forall (fun d => day_phq carry_sample_day_data d = None)
     (firstn 3 (sorted_keys carry_sample_day_data)) -> ds_carried_phq s = None) /\
  (forall i' s' d, 2%nat = S i' ->
     nth_error (signals_loop carry_sample_day_data None (sorted_keys carry_sample_day_data)) i'
       = Some s' ->
     nth_error (sorted_keys carry_sample_day_data) 2 = Some d ->
     day_phq carry_sample_day_data d = None -> ds_carried_phq s = ds_carried_phq s')).
Proof.
  eexists.
  assert (H : nth_error (signals_loop carry_sample_day_data None
                (sorted_keys carry_sample_day_data)) 2 = Some _) by (vm_compute; reflexivity).
  split; [exact H | exact (carried_questionnaire _ _ _ H)].
Defined.

(** * Further properties of the dashboard and its callers *)

(** ** Numeric helpers *)

Lemma Qltb_false (a b : Q) : Qltb a b = false <-> b <= a.
Proof.
  unfold Qltb. rewrite negb_false_iff. apply Qle_bool_iff.
Qed.

Ltac qltb_props :=
  repeat match goal with
  | H : Qltb _ _ = true |- _ => apply Qltb_iff in H
  | H : Qltb _ _ = false |- _ => apply Qltb_false in H
  end.

Lemma py_min_cases (a b : Q) : (b < a /\ py_min a b = b) \/ (a <= b /\ py_min a b = a).
Proof.
  unfold py_min. destruct (Qltb b a) eqn:E; qltb_props; auto.
Qed.

Lemma defined_terms_nil (pairs : list (option Q * Q)) :
  defined_terms pairs = [] <-> Forall (fun p => fst p = None) pairs.
Proof.
  induction pairs as [|[[v|] w] pairs IH]; simpl.
  - split; constructor.
  - split; [discriminate|]. intros H. inversion H as [|? ? Hv]. discriminate.
  - rewrite IH. split; [constructor; auto|]. intros H. inversion H; assumption.
Qed.

(** [_weighted_score] with positive weights: [None] exactly when no term is
    defined, otherwise the renormalised mean of the defined terms. *)
Lemma weighted_score_terms (pairs : list (option Q * Q)) :
  Forall (fun p => 0 < snd p) pairs ->
  match _weighted_score pairs with
  | None => defined_terms pairs = []
  | Some v => defined_terms pairs <> [] /\ 0 < sum_weight (defined_terms pairs) /\
              v == sum_value_weight (defined_terms pairs) / sum_weight (defined_terms pairs)
  end.
Proof.
  intros Hpos. unfold _weighted_score.
  destruct (weighted_fold pairs 0 0) as [H1 H2].
  destruct (fold_left weighted_step pairs (0, 0)) as [numer denom]. simpl in H1, H2.
  pose proof (sum_weight_pos _ (defined_terms_pos _ Hpos)) as Hw.
  destruct (defined_terms pairs) as [|t ts] eqn:Ed.
  - simpl in H2. assert (Hd : Qeq_bool denom 0 = true) by (apply Qeq_bool_iff; lra).
    rewrite Hd. reflexivity.
  - assert (Hp : 0 < sum_weight (t :: ts)) by (apply Hw; discriminate).
    destruct (Qeq_bool denom 0) eqn:Hd; [apply Qeq_bool_iff in Hd; lra|].
    split; [discriminate|]. split; [exact Hp|].
    rewrite H1, H2, !Qplus_0_l. reflexivity.
Qed.

Lemma fold_Qplus_bounds (l : list Q) (a lo hi : Q) :
  Forall (fun x => lo <= x <= hi) l ->
  a + lo * inject_Z (Z.of_nat (length l)) <= fold_left Qplus l a <=
  a + hi * inject_Z (Z.of_nat (length l)).
Proof.
  induction l as [|x l IH] in a |- *; intros Hl; simpl.
  - change (inject_Z (Z.of_nat 0)) with 0. lra.
  - inversion Hl as [|? ? Hx Hl']; subst.
    destruct (IH (a + x) Hl') as [IH1 IH2].
    rewrite Nat2Z.inj_succ, <- Z.add_1_r, inject_Z_plus. change (inject_Z 1) with 1.
    split; ring_simplify; ring_simplify in IH1; ring_simplify in IH2; lra.
Qed.

(** A defined mean of values in [[lo, hi]] lies in [[lo, hi]]. *)
Lemma mean_bounds (values : list Q) (lo hi v : Q) :
  Forall (fun x => lo <= x <= hi) values -> _mean values = Some v -> lo <= v <= hi.
Proof.
  intros Hf Hm. unfold _mean in Hm. destruct values as [|x l]; [discriminate|].
  injection Hm as <-. unfold py_sum, py_len.
  destruct (fold_Qplus_bounds (x :: l) 0 lo hi Hf) as [H1 H2].
  assert (Hn : 0 < inject_Z (Z.of_nat (length (x :: l)))) by (unfold Qlt; simpl; lia).
  split.
  - apply Qle_shift_div_l; [exact Hn|]. lra.
  - apply Qle_shift_div_r; [exact Hn|]. lra.
Qed.

Lemma sleep_penalty_value (h : Q) :
  exists p, _sleep_penalty (Some h) = Some p /\
    ((Qabs (h - 7.5) * (200 # 9) < 100 /\ p == Qabs (h - 7.5) * (200 # 9)) \/
     (100 <= Qabs (h - 7.5) * (200 # 9) /\ p == 100)).
Proof.
  eexists. split; [reflexivity|].
  assert (E : Qabs (h - 7.5) / 4.5 * 100.0 == Qabs (h - 7.5) * (200 # 9)) by field.
  destruct (py_min_cases 100.0 (Qabs (h - 7.5) / 4.5 * 100.0)) as [[H1 ->] | [H1 ->]].
  - left. split; [rewrite <- E; lra | exact E].
  - right. split; [rewrite <- E; lra | lra].
Qed.

Ltac forall_pairs :=
  repeat (first [apply List.Forall_nil | apply List.Forall_cons]); simpl;
  repeat split; intros;
  repeat match goal with
  | H : Some _ = Some _ |- _ => injection H as <-
  | H : None = Some _ |- _ => discriminate H
  end; lra.

(** ** Helpers of [user_dashboard.py] *)

(** X1: with positive weights, [_weighted_score] returns [None] exactly
    when every value of the pairs is [None]. *)
Theorem weighted_score_none_iff (pairs : list (option Q * Q)) :
  Forall (fun p => 0 < snd p) pairs ->
  (_weighted_score pairs = None <-> Forall (fun p => fst p = None) pairs).
Proof.
  intros Hpos. rewrite <- defined_terms_nil.
  pose proof (weighted_score_terms pairs Hpos) as H.
  destruct (_weighted_score pairs) as [v|]; split; intros Hx.
  - discriminate.
  - destruct H as [Hne _]. contradiction.
  - exact H.
  - reflexivity.
Qed.

Lemma weighted_score_none_iff_witness :
  Forall (fun p => 0 < snd p) [(None, 0.6); (Some 3, 0.4)] /\
  (_weighted_score [(None, 0.6); (Some 3, 0.4)] = None <->
   Forall (fun p => fst p = None) [(None, 0.6); (Some 3, 0.4)]).
Proof.
  assert (H : Forall (fun p : option Q * Q => 0 < snd p) [(None, 0.6); (Some 3, 0.4)])
    by (repeat constructor).
  split; [exact H | exact (weighted_score_none_iff _ H)].
Defined.



(** X3: the sleep penalty of a night of [h] hours lies in [0, 100] and is
    0 exactly at 7.5 hours. *)
Theorem sleep_penalty_range (h : Q) :
  exists p, _sleep_penalty (Some h) = Some p /\ 0 <= p <= 100 /\ (p == 0 <-> h == 7.5).
Proof.
  destruct (sleep_penalty_value h) as [p [Hp Hc]].
  exists p. split; [exact Hp|].
  assert (Ha : (7.5 <= h /\ Qabs (h - 7.5) == h - 7.5) \/
               (h <= 7.5 /\ Qabs (h - 7.5) == 7.5 - h)).
  { destruct (Qlt_le_dec h 7.5) as [Hl|Hl]; [right|left]; (split; [lra|]).
    - rewrite Qabs_neg by lra. ring.
    - rewrite Qabs_pos by lra. reflexivity. }
  set (a := Qabs (h - 7.5)) in *. clearbody a.
  destruct Ha as [[Hh Ha] | [Hh Ha]]; destruct Hc as [[Hc1 Hc2] | [Hc1 Hc2]];
    repeat split; try lra; intros Hx; lra.
Qed.

(** X4: [_severity_bucket] always returns one of the four buckets, and a
    higher score never gets a lower bucket. *)
Theorem severity_bucket_monotone (x y : Q) :
  x <= y ->
  In (_severity_bucket x) ["minimal"; "mild"; "moderate"; "severe"] /\
  (severity_rank (_severity_bucket x) <= severity_rank (_severity_bucket y))%nat.
Proof.
  intros Hxy. unfold _severity_bucket.
  destruct (Qltb x 25) eqn:?, (Qltb x 50) eqn:?, (Qltb x 75) eqn:?,
    (Qltb y 25) eqn:?, (Qltb y 50) eqn:?, (Qltb y 75) eqn:?; qltb_props; try lra;
    (split; [simpl; repeat (first [left; reflexivity | right]) | vm_compute; lia]).
Qed.

Lemma severity_bucket_monotone_witness :
  30 <= 80 /\
  In (_severity_bucket 30) ["minimal"; "mild"; "moderate"; "severe"] /\
  (severity_rank (_severity_bucket 30) <= severity_rank (_severity_bucket 80))%nat.
Proof.
  assert (H : 30 <= 80) by (vm_compute; discriminate).
  split; [exact H | exact (severity_bucket_monotone _ _ H)].
Defined.

Lemma checkin_rate_bounds (row : CheckIn) : 0 <= checkin_rate row <= 1.
Proof.
  unfold checkin_rate.
  destruct (note row) as [|c t]; simpl.
  - destruct (exercised row); lra.
  - destruct (Z.ltb_spec 0 (Z.max 0 t)) as [Ht|Ht].
    + assert (Hq : 0 <= inject_Z (Z.max 0 c) / inject_Z (Z.max 0 t)).
      { apply Qle_shift_div_l.
        - unfold Qlt. simpl. lia.
        - rewrite Qmult_0_l. unfold Qle. simpl. lia. }
      destruct (py_min_cases 1.0 (inject_Z (Z.max 0 c) / inject_Z (Z.max 0 t)))
        as [[H1 ->] | [H1 ->]]; lra.
    + destruct (exercised row); lra.
Qed.

(** X5: [_parse_checkin_note] never returns a negative count, and the
    challenge completion rate a check-in appends lies in [0, 1]. *)
Theorem checkin_rate_unit (row : CheckIn) :
  (0 <= fst (_parse_checkin_note (note row)))%Z /\
  (0 <= snd (_parse_checkin_note (note row)))%Z /\
  0 <= checkin_rate row <= 1.
Proof.
  split; [|split]; [..|apply checkin_rate_bounds];
    destruct (note row); simpl; lia.
Qed.


(** ** The pipeline: which rows create days, and which weeks are emitted *)

Lemma filter_phq9_list (l : list Assessment) :
  filter (fun a => is_phq9 a = true) l = List.filter is_phq9 l.
Proof.
  induction l as [|a l IH]; [reflexivity|].
  transitivity (if decide (is_phq9 a = true) then a :: filter (fun a => is_phq9 a = true) l
                else filter (fun a => is_phq9 a = true) l); [reflexivity|].
  rewrite IH. simpl. destruct (is_phq9 a); reflexivity.
Qed.

Lemma List_filter_idem {A} (f : A -> bool) (l : list A) :
  List.filter f (List.filter f l) = List.filter f l.
Proof.
  induction l as [|x l IH]; simpl; [done|].
  destruct (f x) eqn:E; simpl; [rewrite E, IH|]; done.
Qed.

Lemma group_by_filter_touch {A V} (key : A -> Z) (touch : A -> bool) (contrib : A -> V)
    (vapp : V -> V -> V) (vnil : V) (l : list A) (m : gmap Z V) :
  group_by key touch contrib vapp vnil l m =
  group_by key touch contrib vapp vnil (List.filter touch l) m.
Proof.
  unfold group_by. induction l as [|x l IH] in m |- *; [done|].
  cbn [fold_left List.filter]. destruct (touch x) eqn:E; cbn [fold_left].
  - apply IH.
  - rewrite <- IH. f_equal. unfold group_push. rewrite E. reflexivity.
Qed.

Lemma filter_hits_nonempty {A} (key : A -> Z) (touch : A -> bool) (d : Z) (l : list A) :
  List.filter (hits key touch d) l <> [] <-> exists x, In x l /\ touch x = true /\ key x = d.
Proof.
  split.
  - intros H. destruct (List.filter (hits key touch d) l) as [|x r] eqn:E; [done|].
    assert (Hx : In x (List.filter (hits key touch d) l)) by (rewrite E; left; done).
    apply filter_In in Hx as [Hx Hh]. unfold hits in Hh.
    apply andb_true_iff in Hh as [Ht Hk]. apply bool_decide_eq_true in Hk. eauto.
  - intros (x & Hx & Ht & Hk) E.
    assert (Hin : In x (List.filter (hits key touch d) l)).
    { apply filter_In. split; [done|]. unfold hits. rewrite Ht. simpl.
      apply bool_decide_eq_true, Hk. }
    rewrite E in Hin. done.
Qed.

(** The days of [day_data] are the dates of the check-ins, of the chat
    events with an indicator and of the PHQ-9 assessments. *)
Lemma build_day_data_dom ci ch as_ (d : Z) :
  d ∈ dom (build_day_data ci ch (List.filter is_phq9 as_)) <-> In d (event_dates ci ch as_).
Proof.
  unfold build_day_data, event_dates.
  rewrite !group_by_dom, dom_empty_L, !filter_hits_nonempty, !in_app_iff, !in_map_iff.
  split.
  - intros [[[Hd | (x & Hx & _ & Hk)] | (x & Hx & Ht & Hk)] | (x & Hx & _ & Hk)].
    + set_solver.
    + left. eauto.
    + right. left. exists x. split; [done|]. apply filter_In. done.
    + right. right. eauto.
  - intros [(x & Hk & Hx) | [(x & Hk & Hx) | (x & Hk & Hx)]].
    + left. left. right. eauto.
    + apply filter_In in Hx as [Hx Ht]. left. right. eauto.
    + right. eauto.
Qed.

Lemma build_day_data_touch ci ch as_ :
  build_day_data ci ch as_ = build_day_data ci (List.filter chat_touches ch) as_.
Proof.
  unfold build_day_data. f_equal.
  apply (group_by_filter_touch ch_date chat_touches chat_contrib dd_app dd_empty).
Qed.

Lemma dashboard_unfold ci ch as_ :
  build_user_weekly_dashboard ci ch as_ =
  let day_data := build_day_data ci ch (List.filter is_phq9 as_) in
  if decide (dom day_data = ∅) then []
  else _apply_alert_rules (weekly_rows (day_scores day_data)).
Proof. unfold build_user_weekly_dashboard. rewrite filter_phq9_list. reflexivity. Qed.

Lemma dom_empty_iff_events ci ch as_ :
  dom (build_day_data ci ch (List.filter is_phq9 as_)) = ∅ <-> event_dates ci ch as_ = [].
Proof.
  split.
  - intros H. destruct (event_dates ci ch as_) as [|d r] eqn:E; [done|].
    assert (Hd : In d (event_dates ci ch as_)) by (rewrite E; left; done).
    apply build_day_data_dom in Hd. rewrite H in Hd. set_solver.
  - intros H. apply set_eq. intros d. rewrite build_day_data_dom, H. set_solver.
Qed.

Lemma weekly_buckets_elem (s : list DayScore) (x : DayScore) :
  In x s -> week_start (sc_date x) ∈ dom (weekly_buckets s).
Proof.
  intros Hx. unfold weekly_buckets. apply group_by_dom. right.
  apply filter_hits_nonempty. eauto.
Qed.

Lemma weekly_rows_nil (s : list DayScore) : weekly_rows s = [] -> s = [].
Proof.
  destruct s as [|x s]; [done|]. intros H. exfalso.
  unfold weekly_rows in H. apply map_eq_nil in H.
  assert (Hw : week_start (sc_date x) ∈ sorted_keys (weekly_buckets (x :: s))).
  { apply sorted_keys_elem, weekly_buckets_elem. left. done. }
  rewrite H in Hw. set_solver.
Qed.

Lemma day_scores_elem (m : gmap Z DayData) (d : Z) :
  d ∈ dom m <-> exists x, In x (day_scores m) /\ sc_date x = d.
Proof.
  rewrite <- sorted_keys_elem, <- day_scores_dates, list_elem_of_In, in_map_iff.
  split; intros (x & H1 & H2); eauto.
Qed.

(** The weeks of the dashboard are the weeks of the event dates. *)
Lemma dashboard_weeks ci ch as_ (ws : Z) :
  (exists r, In r (build_user_weekly_dashboard ci ch as_) /\ week_start_date (wr_row r) = ws) <->
  (exists d, In d (event_dates ci ch as_) /\ week_start d = ws).
Proof.
  rewrite dashboard_unfold. cbv zeta.
  set (m := build_day_data ci ch (List.filter is_phq9 as_)).
  case_decide as Hm.
  - split; [intros (r & [] & _)|]. intros (d & Hd & _).
    apply dom_empty_iff_events in Hm. rewrite Hm in Hd. destruct Hd.
  - unfold _apply_alert_rules. split.
    + intros (r & Hr & Hws).
      assert (Hrow : In (wr_row r) (weekly_rows (day_scores m))).
      { rewrite <- (alert_loop_rows None None None). apply in_map, Hr. }
      apply weekly_rows_elem in Hrow as (ws' & _ & Hrow & Hne).
      rewrite Hrow in Hws. simpl in Hws. subst ws'.
      apply filter_hits_nonempty in Hne as (x & Hx & _ & Hk).
      exists (sc_date x). split; [|exact Hk].
      apply build_day_data_dom. apply day_scores_elem. eauto.
    + intros (d & Hd & Hws).
      apply build_day_data_dom, day_scores_elem in Hd as (x & Hx & Hxd).
      assert (Hw : ws ∈ dom (weekly_buckets (day_scores m))).
      { rewrite <- Hws, <- Hxd. apply weekly_buckets_elem, Hx. }
      set (row := week_row ws (default [] (weekly_buckets (day_scores m) !! ws))).
      assert (Hrow : In row (map wr_row (alert_loop None None None (weekly_rows (day_scores m))))).
      { rewrite alert_loop_rows. unfold weekly_rows. apply in_map_iff.
        exists ws. split; [reflexivity|]. apply list_elem_of_In, sorted_keys_elem, Hw. }
      apply in_map_iff in Hrow as (r & Hr & Hin). exists r. split; [exact Hin|].
      rewrite Hr. reflexivity.
Qed.

Lemma week_start_weekday (d : Z) : weekday (week_start d) = 0%Z.
Proof.
  unfold week_start, weekday.
  replace (d - (d + 6) mod 7 + 6)%Z with ((d + 6) / 7 * 7)%Z
    by (pose proof (Z.div_mod (d + 6) 7 ltac:(lia)); lia).
  apply Z_mod_mult.
Qed.

(** Counting the members of each bucket of a partition. *)
Lemma sum_list_with_plus {A} (f g : A -> nat) (l : list A) :
  sum_list_with (fun k => f k + g k)%nat l = (sum_list_with f l + sum_list_with g l)%nat.
Proof. induction l as [|x l IH]; simpl; [done|]. rewrite IH. lia. Qed.

Lemma sum_indicator (c : Z) (K : list Z) :
  NoDup K ->
  sum_list_with (fun k => if bool_decide (c = k) then 1 else 0)%nat K =
  (if bool_decide (c ∈ K) then 1 else 0)%nat.
Proof.
  induction K as [|k K IH]; intros Hn; simpl.
  - first [reflexivity | rewrite bool_decide_false by set_solver; done].
  - apply NoDup_cons in Hn as [Hk Hn]. rewrite IH by exact Hn.
    destruct (decide (c = k)) as [->|E].
    + rewrite (bool_decide_true (k = k)) by done.
      rewrite (bool_decide_false (k ∈ K)) by exact Hk.
      rewrite (bool_decide_true (k ∈ k :: K)) by set_solver. done.
    + rewrite (bool_decide_false (c = k)) by exact E. simpl.
      destruct (bool_decide_reflect (c ∈ K)) as [H1|H1];
        destruct (bool_decide_reflect (c ∈ k :: K)) as [H2|H2]; set_solver.
Qed.

Lemma sum_list_with_pointwise {A} (f g : A -> nat) (l : list A) :
  (forall k, f k = g k) -> sum_list_with f l = sum_list_with g l.
Proof. intros H. induction l as [|x l IH]; simpl; [done|]. rewrite H, IH. done. Qed.

Lemma sum_bucket_sizes {A} (f : A -> Z) (K : list Z) (s : list A) :
  NoDup K -> (forall x, In x s -> f x ∈ K) ->
  sum_list_with (fun k => length (List.filter (fun x => bool_decide (f x = k)) s)) K = length s.
Proof.
  intros Hn. induction s as [|x s IH]; intros Hs; simpl.
  - clear Hs. induction K as [|k K IHK]; simpl; [done|]. apply NoDup_cons in Hn as [_ Hn].
    rewrite IHK; done.
  - transitivity (sum_list_with (fun k => (if bool_decide (f x = k) then 1 else 0) +
                     length (List.filter (fun y => bool_decide (f y = k)) s))%nat K).
    { apply sum_list_with_pointwise. intros k. case_bool_decide; simpl; lia. }
    rewrite sum_list_with_plus, sum_indicator by exact Hn.
    rewrite bool_decide_true by (apply Hs; left; done).
    rewrite IH by (intros y Hy; apply Hs; right; exact Hy). done.
Qed.

(** ** Invariants of [day_data] and of the daily loop *)

Lemma group_by_forall {A V} (key : A -> Z) (touch : A -> bool) (contrib : A -> V)
    (vapp : V -> V -> V) (vnil : V) (P : V -> Prop) (l : list A) (m : gmap Z V) :
  P vnil -> (forall v x, In x l -> P v -> P (vapp v (contrib x))) ->
  (forall d v, m !! d = Some v -> P v) ->
  forall d v, group_by key touch contrib vapp vnil l m !! d = Some v -> P v.
Proof.
  intros Hnil. unfold group_by.
  induction l as [|x l IH] in m |- *; simpl; intros Happ Hm; [exact Hm|].
  apply IH; [intros v y Hy; apply Happ; right; exact Hy|].
  intros d v. unfold group_push. destruct (touch x); [|apply Hm].
  destruct (decide (d = key x)) as [->|Hne].
  - rewrite lookup_insert_eq. intros [= <-]. apply Happ; [left; done|].
    destruct (m !! key x) eqn:E; simpl; [apply (Hm _ _ E)|exact Hnil].
  - rewrite lookup_insert_ne by congruence. apply Hm.
Qed.

Lemma day_data_forall (P : DayData -> Prop) ci ch as_ :
  P dd_empty ->
  (forall v x, In x ci -> P v -> P (dd_app v (checkin_contrib x))) ->
  (forall v x, In x ch -> P v -> P (dd_app v (chat_contrib x))) ->
  (forall v x, In x as_ -> P v -> P (dd_app v (assessment_contrib x))) ->
  forall d, P (default dd_empty (build_day_data ci ch as_ !! d)).
Proof.
  intros H0 H1 H2 H3 d.
  destruct (build_day_data ci ch as_ !! d) as [v|] eqn:E; simpl; [|exact H0].
  revert E. unfold build_day_data. apply group_by_forall; [exact H0|exact H3|].
  apply group_by_forall; [exact H0|exact H2|].
  apply group_by_forall; [exact H0|exact H1|].
  intros d' v'. rewrite lookup_empty. discriminate.
Qed.

Lemma signals_loop_elem (m : gmap Z DayData) c days (s : DailySignal) :
  In s (signals_loop m c days) -> exists d c', s = day_signal d (default dd_empty (m !! d)) c'.
Proof.
  induction days as [|d days IH] in c |- *; simpl; [intros []|].
  intros [<-|H]; [eauto|]. apply (IH _ H).
Qed.

Lemma day_rates_unit ci ch as_ (d : Z) :
  Forall (fun x => 0 <= x <= 1)
    (dd_challenge_completion_rate (default dd_empty (build_day_data ci ch as_ !! d))).
Proof.
  apply (day_data_forall
           (fun v => Forall (fun x => 0 <= x <= 1) (dd_challenge_completion_rate v))).
  - constructor.
  - intros v x _ Hv. unfold dd_app. simpl. apply Forall_app. split; [exact Hv|].
    constructor; [apply checkin_rate_bounds | constructor].
  - intros v x _ Hv. unfold dd_app, chat_contrib.
    destruct (extracted x); simpl; rewrite app_nil_r; exact Hv.
  - intros v x _ Hv. unfold dd_app. simpl. rewrite app_nil_r. exact Hv.
Qed.

Lemma day_phq_range ci ch as_ (d : Z) :
  Forall (fun a => (0 <= total_score a <= 27)%Z) as_ ->
  Forall (fun x => 0 <= x <= 27) (dd_phq_total (default dd_empty (build_day_data ci ch as_ !! d))).
Proof.
  intros Has.
  apply (day_data_forall (fun v => Forall (fun x => 0 <= x <= 27) (dd_phq_total v))).
  - constructor.
  - intros v x _ Hv. unfold dd_app. simpl. rewrite app_nil_r. exact Hv.
  - intros v x _ Hv. unfold dd_app, chat_contrib.
    destruct (extracted x); simpl; rewrite app_nil_r; exact Hv.
  - intros v x Hx Hv. unfold dd_app. simpl. apply Forall_app. split; [exact Hv|].
    constructor; [|constructor].
    rewrite List.Forall_forall in Has. destruct (Has x Hx) as [H1 H2].
    split; unfold Qle; simpl; lia.
Qed.

Lemma signals_loop_carry_range (m : gmap Z DayData) c days :
  (forall d, Forall (fun x => 0 <= x <= 27) (dd_phq_total (default dd_empty (m !! d)))) ->
  (forall q, c = Some q -> 0 <= q <= 100) ->
  forall s p, In s (signals_loop m c days) -> ds_carried_phq s = Some p -> 0 <= p <= 100.
Proof.
  intros Hm. induction days as [|d days IH] in c |- *; intros Hc s p; simpl; [intros []|].
  assert (Hs : forall q, ds_carried_phq (day_signal d (default dd_empty (m !! d)) c) = Some q ->
                         0 <= q <= 100).
  { intros q. simpl. unfold next_carry.
    destruct (_mean (dd_phq_total _)) as [v|] eqn:Ev.
    - intros [= <-]. pose proof (mean_bounds _ 0 27 v (Hm d) Ev).
      assert (E : v / 27.0 * 100.0 == v * (100 # 27)) by field. rewrite E. lra.
    - apply Hc. }
  intros [<-|Hin]; [apply Hs|]. apply (IH _ Hs _ _ Hin).
Qed.

(** ** Counting and ordering helpers *)

Lemma sum_list_with_map {A B} (f : B -> nat) (g : A -> B) (l : list A) :
  sum_list_with f (map g l) = sum_list_with (fun x => f (g x)) l.
Proof. induction l as [|x l IH]; simpl; [done|]. rewrite IH. done. Qed.

Lemma sum_list_with_pointwise_in {A} (f g : A -> nat) (l : list A) :
  (forall k, In k l -> f k = g k) -> sum_list_with f l = sum_list_with g l.
Proof.
  induction l as [|x l IH]; intros H; simpl; [done|].
  rewrite (H x (or_introl eq_refl)), IH; [done|]. intros k Hk. apply H. right. exact Hk.
Qed.

Lemma sorted_last_max {A} (f : A -> Z) (pre : list A) (l x : A) :
  Sorted Z.lt (map f (pre ++ [l])) -> In x (pre ++ [l]) -> (f x <= f l)%Z.
Proof.
  intros Hs Hx. apply Sorted_StronglySorted in Hs; [|exact Z.lt_trans].
  induction pre as [|a pre IH]; simpl in *.
  - destruct Hx as [<-|[]]. lia.
  - apply StronglySorted_inv in Hs as [Hs Hf]. destruct Hx as [<-|Hx].
    + rewrite List.Forall_forall in Hf.
      assert (Hin : In (f l) (map f (pre ++ [l]))).
      { apply in_map, in_or_app. right. left. done. }
      specialize (Hf _ Hin). lia.
    + apply IH; assumption.
Qed.


(** ** Strings *)

(** [strip] removes the UTF-8 encoded U+3000 before a code and the U+00A0
    after it, as Python does with ['\u3000severe_band\xa0'.strip()]. *)
Lemma py_strip_unicode_sample :
  py_strip (String (ascii_of_nat 227) (String (ascii_of_nat 128) (String (ascii_of_nat 128)
    ("severe_band" +:+ String (ascii_of_nat 194) (String (ascii_of_nat 160) ""))))) =
  "severe_band".
Proof. vm_compute. reflexivity. Qed.

Lemma str_app_cons (c : ascii) (s t : string) : String c s +:+ t = String c (s +:+ t).
Proof. reflexivity. Qed.

Lemma str_app_nil_l (t : string) : "" +:+ t = t.
Proof. reflexivity. Qed.

Lemma str_app_nil_r (s : string) : s +:+ "" = s.
Proof. induction s as [|c s IH]; [done|]. rewrite str_app_cons, IH. done. Qed.

Lemma str_app_assoc (a b c : string) : (a +:+ b) +:+ c = a +:+ (b +:+ c).
Proof. induction a as [|x a IH]; [done|]. rewrite !str_app_cons, IH. done. Qed.

Lemma no_bar_cons (c : ascii) (s : string) :
  no_bar (String c s) = true -> Ascii.eqb c "|"%char = false /\ no_bar s = true.
Proof.
  unfold no_bar. simpl. intros H. apply andb_true_iff in H as [H1 H2].
  split; [|exact H2]. destruct (Ascii.eqb c "|"%char); done.
Qed.

Lemma split_bar_aux_nobar (s cur : string) :
  no_bar s = true -> split_bar_aux s cur = [cur +:+ s].
Proof.
  induction s as [|c s IH] in cur |- *; intros H; simpl.
  - rewrite str_app_nil_r. done.
  - apply no_bar_cons in H as [Hc Hs]. rewrite Hc, IH by exact Hs.
    rewrite str_app_assoc. done.
Qed.

Lemma split_bar_aux_sep (s t cur : string) :
  no_bar s = true -> split_bar_aux (s +:+ ("|" +:+ t)) cur = (cur +:+ s) :: split_bar_aux t "".
Proof.
  change ("|" +:+ t) with (String "|" t).
  induction s as [|c s IH] in cur |- *; intros H;
    rewrite ?str_app_cons, ?str_app_nil_l; simpl.
  - rewrite str_app_nil_r. done.
  - apply no_bar_cons in H as [Hc Hs]. rewrite Hc, IH by exact Hs.
    rewrite str_app_assoc. done.
Qed.

Lemma concat_cons2 (sep x y : string) (codes : list string) :
  String.concat sep (x :: y :: codes) = x +:+ (sep +:+ String.concat sep (y :: codes)).
Proof. reflexivity. Qed.

(** ** De-duplication of the reasons *)

Lemma dedup_fold_spec (l acc : list string) :
  NoDup acc ->
  NoDup (fold_left dedup_step l acc) /\
  (forall x, x ∈ fold_left dedup_step l acc <-> x ∈ acc \/ x ∈ l) /\
  fold_left dedup_step l acc `sublist_of` acc ++ l.
Proof.
  induction l as [|r l IH] in acc |- *; intros Hn; simpl.
  - rewrite app_nil_r. split; [done|]. split; [set_solver|done].
  - assert (E : dedup_step acc r = if bool_decide (r ∈ acc) then acc else acc ++ [r])
      by reflexivity.
    rewrite E. destruct (decide (r ∈ acc)) as [Hr|Hr].
    + rewrite (bool_decide_true _ Hr).
      destruct (IH acc Hn) as (H1 & H2 & H3). split; [exact H1|]. split.
      * intros x. rewrite H2. set_solver.
      * etransitivity; [exact H3|]. apply sublist_app; [done|]. apply sublist_cons. done.
    + rewrite (bool_decide_false _ Hr).
      assert (Hn' : NoDup (acc ++ [r])).
      { apply NoDup_app. split; [exact Hn|]. split; [set_solver|apply NoDup_singleton]. }
      destruct (IH _ Hn') as (H1 & H2 & H3). split; [exact H1|]. split.
      * intros x. rewrite H2. set_solver.
      * rewrite <- app_assoc in H3. exact H3.
Qed.

Lemma code_reasons_nonempty (codes : string) : Forall (fun x => x <> "") (code_reasons codes).
Proof.
  unfold code_reasons.
  assert (H : forall l acc, Forall (fun x => x <> "") acc ->
    Forall (fun x => x <> "") (fold_left (fun reasons code =>
      let c := py_strip code in
      if String.eqb c "" then reasons else reasons ++ [risk_label c]) l acc)).
  { induction l as [|code l IH]; intros acc Hacc; simpl; [exact Hacc|]. apply IH.
    destruct (String.eqb (py_strip code) "") eqn:E; [exact Hacc|].
    apply Forall_app. split; [exact Hacc|]. constructor; [|constructor].
    apply String.eqb_neq in E. unfold risk_label.
    destruct (String.eqb _ "worsening_delta"); [discriminate|].
    destruct (String.eqb _ "severe_band"); [discriminate|].
    destruct (String.eqb _ "high_composite"); [discriminate|exact E]. }
  apply H. constructor.
Qed.

Lemma risk_reasons_nonempty codes (total_score : Z) (severity : string) :
  Forall (fun x => x <> "") (risk_reasons codes total_score severity).
Proof.
  unfold risk_reasons.
  assert (H0 : Forall (fun x => x <> "") (match codes with
                 | Some c => if String.eqb c "" then [] else code_reasons c
                 | None => [] end)).
  { destruct codes as [c|]; [|constructor].
    destruct (String.eqb c ""); [constructor|apply code_reasons_nonempty]. }
  destruct (15 <=? total_score)%Z; destruct (String.eqb severity "");
    repeat (apply Forall_app; split); try exact H0; repeat constructor; discriminate.
Qed.

(** The reasons read back from the codes of one loop row. *)
Lemma risk_text_alert_row a b c (row : WeekRow) (total_score : Z) (severity : string) :
  let r := alert_row a b c row in
  let reasons := fired_labels r ++
    (if (15 <=? total_score)%Z then ["검사 총점 15점 이상"] else []) ++
    (if String.eqb severity "" then [] else ["심각도: " +:+ severity]) in
  risk_reasons (Some (alert_reason_codes r)) total_score severity = reasons /\
  _major_risk_factor_text (Some (alert_reason_codes r)) total_score severity =
    match reasons with
    | [] => "고위험 규칙 조건 충족"
    | _ => String.concat ", " reasons
    end.
Proof.
  cbv zeta.
  unfold _major_risk_factor_text, risk_reasons, fired_labels, alert_row. cbv zeta.
  cbn [alert_reason_codes rule_week_delta_worsen rule_any_severe rule_composite_high].
  destruct (jump _ || jump _ || jump _), (existsb _ _), (Qle_bool 65 _);
    destruct (15 <=? total_score)%Z, (String.eqb severity "");
    vm_compute; split; reflexivity.
Qed.

(** * Further properties: statements *)

(** X7: every weekly record of the dashboard has its dep, anx and ins week
    values and its symptom composite in [0, 100]. *)
Theorem weekly_values_in_range ci ch as_ (r : WeeklyRecord) :
  In r (build_user_weekly_dashboard ci ch as_) ->
  (0 <= dep_week_pred_0_100 (wr_row r) <= 100) /\
  (0 <= anx_week_pred_0_100 (wr_row r) <= 100) /\
  (0 <= ins_week_pred_0_100 (wr_row r) <= 100) /\
  (0 <= symptom_composite_pred_0_100 (wr_row r) <= 100).
Proof.
  rewrite dashboard_unfold. cbv zeta.
  set (m := build_day_data ci ch (List.filter is_phq9 as_)).
  case_decide as Hm; [intros []|]. unfold _apply_alert_rules. intros Hr.
  assert (Hrow : In (wr_row r) (weekly_rows (day_scores m))).
  { rewrite <- (alert_loop_rows None None None). apply in_map, Hr. }
  apply weekly_rows_elem in Hrow as (ws & _ & Hrow & _). rewrite Hrow.
  set (items := List.filter _ (day_scores m)).
  assert (Hitems : forall x, In x items ->
    (0 <= sc_dep x <= 100) /\ (0 <= sc_anx x <= 100) /\ (0 <= sc_ins x <= 100)).
  { intros x Hx. apply filter_In in Hx as [Hx _]. unfold day_scores in Hx.
    apply in_map_iff in Hx as (s & <- & _).
    destruct (score_signal_fields s) as (-> & -> & ->). split; [|split]; apply clip_bounds. }
  assert (Hor : forall f : DayScore -> Q, (forall x, In x items -> 0 <= f x <= 100) ->
                  0 <= or_50 (_mean (map f items)) <= 100).
  { intros f Hf. unfold or_50. destruct (_mean (map f items)) as [v|] eqn:Ev; [|lra].
    destruct (Qeq_bool v 0); [lra|].
    apply (mean_bounds (map f items) 0 100 v); [|exact Ev].
    apply List.Forall_forall. intros y Hy. apply in_map_iff in Hy as (x & <- & Hx).
    apply Hf, Hx. }
  pose proof (Hor sc_dep (fun x Hx => proj1 (Hitems x Hx))) as Hd.
  pose proof (Hor sc_anx (fun x Hx => proj1 (proj2 (Hitems x Hx)))) as Ha.
  pose proof (Hor sc_ins (fun x Hx => proj2 (proj2 (Hitems x Hx)))) as Hi.
  unfold week_row.
  cbn [dep_week_pred_0_100 anx_week_pred_0_100 ins_week_pred_0_100
       symptom_composite_pred_0_100].
  set (a := or_50 (_mean (map sc_dep items))) in *.
  set (b := or_50 (_mean (map sc_anx items))) in *.
  set (c := or_50 (_mean (map sc_ins items))) in *.
  assert (E : (a + b + c) / 3.0 == (a + b + c) * (1 # 3)) by field.
  rewrite E. lra.
Qed.

Lemma weekly_values_in_range_witness :
  exists r, In r (build_user_weekly_dashboard
    [plain_checkin monday_2024_01_01 4; plain_checkin (monday_2024_01_01 + 2) 5] [] []) /\
  (0 <= dep_week_pred_0_100 (wr_row r) <= 100) /\
  (0 <= anx_week_pred_0_100 (wr_row r) <= 100) /\
  (0 <= ins_week_pred_0_100 (wr_row r) <= 100) /\
  (0 <= symptom_composite_pred_0_100 (wr_row r) <= 100).
Proof.
  eexists.
  assert (H : In _ (build_user_weekly_dashboard
    [plain_checkin monday_2024_01_01 4; plain_checkin (monday_2024_01_01 + 2) 5] [] []))
    by (vm_compute; left; reflexivity).
  split; [exact H | exact (weekly_values_in_range _ _ _ _ H)].
Defined.

(** X8: a week appears in the dashboard exactly when it is the week start
    of a check-in date, of the date of a chat event with an indicator, or
    of a PHQ-9 date. *)
Theorem weeks_of_events ci ch as_ (ws : Z) :
  (exists r, In r (build_user_weekly_dashboard ci ch as_) /\ week_start_date (wr_row r) = ws) <->
  (exists d, In d (event_dates ci ch as_) /\ week_start d = ws).
Proof. exact (dashboard_weeks ci ch as_ ws). Qed.

(** X9: every week start of the dashboard is a Monday. *)
Theorem week_start_monday ci ch as_ (r : WeeklyRecord) :
  In r (build_user_weekly_dashboard ci ch as_) -> weekday (week_start_date (wr_row r)) = 0%Z.
Proof.
  intros Hr.
  destruct (proj1 (dashboard_weeks ci ch as_ (week_start_date (wr_row r)))
                  (ex_intro _ r (conj Hr eq_refl))) as (d & _ & <-).
  apply week_start_weekday.
Qed.

Lemma week_start_monday_witness :
  exists r, In r (build_user_weekly_dashboard
    [plain_checkin (monday_2024_01_01 + 3) 4] [] []) /\
  weekday (week_start_date (wr_row r)) = 0%Z.
Proof.
  eexists.
  assert (H : In _ (build_user_weekly_dashboard
    [plain_checkin (monday_2024_01_01 + 3) 4] [] [])) by (vm_compute; left; reflexivity).
  split; [exact H | exact (week_start_monday _ _ _ _ H)].
Defined.

(** X10: the dashboard is empty exactly when there is no check-in, no chat
    event with an indicator and no PHQ-9 assessment. *)
Theorem dashboard_empty_iff ci ch as_ :
  build_user_weekly_dashboard ci ch as_ = [] <-> event_dates ci ch as_ = [].
Proof.
  rewrite dashboard_unfold. cbv zeta.
  case_decide as Hm.
  - split; intros _; [apply dom_empty_iff_events, Hm | reflexivity].
  - split; intros H; exfalso.
    + apply Hm. unfold _apply_alert_rules in H.
      apply (f_equal length) in H. rewrite alert_loop_length in H.
      apply length_zero_iff_nil in H. apply weekly_rows_nil in H.
      apply (f_equal (map sc_date)) in H. rewrite day_scores_dates in H.
      apply set_eq. intros d. rewrite <- sorted_keys_elem, H. simpl. set_solver.
    + apply Hm, dom_empty_iff_events, H.
Qed.

(** X11: chat events with no indicator and assessments of other types do
    not change the dashboard. *)
Theorem dashboard_ignores_irrelevant_rows ci ch as_ :
  build_user_weekly_dashboard ci ch as_ =
  build_user_weekly_dashboard ci (List.filter chat_touches ch) (List.filter is_phq9 as_).
Proof.
  rewrite !dashboard_unfold, List_filter_idem, <- build_day_data_touch. reflexivity.
Qed.

(** X12: the active days of all the weeks add up to the number of distinct
    event dates. *)
Theorem active_days_total ci ch as_ :
  sum_list_with (fun r => active_days (wr_row r)) (build_user_weekly_dashboard ci ch as_) =
  length (remove_dups (event_dates ci ch as_)).
Proof.
  rewrite dashboard_unfold. cbv zeta.
  case_decide as Hm.
  - apply dom_empty_iff_events in Hm. rewrite Hm. reflexivity.
  - set (m := build_day_data ci ch (List.filter is_phq9 as_)).
    transitivity (length (sorted_keys m)).
    + unfold _apply_alert_rules.
      rewrite <- (sum_list_with_map active_days wr_row), alert_loop_rows.
      rewrite <- day_scores_dates, length_map.
      set (s := day_scores m). unfold weekly_rows. cbv zeta.
      rewrite sum_list_with_map.
      transitivity (sum_list_with
        (fun k => length (List.filter (fun x => bool_decide (week_start (sc_date x) = k)) s))
        (sorted_keys (weekly_buckets s))).
      * apply sum_list_with_pointwise_in. intros ws Hws.
        apply list_elem_of_In, sorted_keys_elem in Hws.
        destruct (weekly_buckets_lookup s ws Hws) as [Hl _]. rewrite Hl. reflexivity.
      * apply sum_bucket_sizes; [apply sorted_keys_NoDup|].
        intros x Hx. apply sorted_keys_elem, weekly_buckets_elem, Hx.
    + apply Permutation_length, NoDup_Permutation;
        [apply sorted_keys_NoDup | apply NoDup_remove_dups |].
      intros d. unfold m.
      rewrite sorted_keys_elem, elem_of_remove_dups, build_day_data_dom, list_elem_of_In.
      reflexivity.
Qed.

(** X13: after [_apply_alert_rules], a record is flagged exactly when the
    severe-band rule or the composite rule fired, and its level is "high"
    exactly when both fired; the delta rule alone never flags. *)
Theorem alert_flag_level_by_rules (rows : list WeekRow) (r : WeeklyRecord) :
  In r (_apply_alert_rules rows) ->
  (alert_flag r = 1%Z <-> rule_any_severe r = 1%Z \/ rule_composite_high r = 1%Z) /\
  (alert_level r = "high" <-> rule_any_severe r = 1%Z /\ rule_composite_high r = 1%Z).
Proof.
  intros Hin. apply alert_loop_elem in Hin as (a & b & c & row & _ & ->).
  pose proof (alert_row_spec a b c row) as H. unfold rules_spec in H. cbv zeta in H.
  destruct H as ([Hrd _] & [Hrs _] & [Hrc _] & Hs & [_ Hf] & Hh & _).
  rewrite Hf, Hh, Hs. split; split; intros; lia.
Qed.

Lemma alert_flag_level_by_rules_witness :
  exists r, In r (_apply_alert_rules alert_sample_rows) /\
  (alert_flag r = 1%Z <-> rule_any_severe r = 1%Z \/ rule_composite_high r = 1%Z) /\
  (alert_level r = "high" <-> rule_any_severe r = 1%Z /\ rule_composite_high r = 1%Z).
Proof.
  eexists.
  assert (H : In _ (_apply_alert_rules alert_sample_rows)) by (vm_compute; left; reflexivity).
  split; [exact H | exact (alert_flag_level_by_rules _ _ H)].
Defined.



(** X16: splitting a ["|"]-join of codes that hold no ["|"] gives the codes
    back, as [admin_service] reads the dashboard's reason codes. *)
Theorem split_bar_join (codes : list string) :
  codes <> [] -> Forall (fun c => no_bar c = true) codes ->
  split_bar (String.concat "|" codes) = codes.
Proof.
  intros Hne Hf. induction codes as [|x codes IH]; [done|].
  apply List.Forall_cons_iff in Hf as [Hx Hf].
  destruct codes as [|y codes].
  - unfold split_bar. simpl. rewrite split_bar_aux_nobar by exact Hx. done.
  - unfold split_bar in *. rewrite concat_cons2.
    rewrite split_bar_aux_sep by exact Hx. rewrite str_app_nil_l. f_equal.
    apply IH; [discriminate | exact Hf].
Qed.

Lemma split_bar_join_witness :
  ["severe_band"; "high_composite"] <> [] /\
  Forall (fun c => no_bar c = true) ["severe_band"; "high_composite"] /\
  split_bar (String.concat "|" ["severe_band"; "high_composite"]) =
    ["severe_band"; "high_composite"].
Proof.
  assert (H1 : ["severe_band"; "high_composite"] <> []) by discriminate.
  assert (H2 : Forall (fun c => no_bar c = true) ["severe_band"; "high_composite"])
    by (repeat constructor).
  split; [exact H1|]. split; [exact H2|]. exact (split_bar_join _ H1 H2).
Defined.

(** X17: for a dashboard record, [_major_risk_factor_text] lists the labels
    of the fired rules in rule order, then the total-score reason, then the
    severity, with nothing removed as a duplicate, and falls back to the
    fixed sentence when the list is empty. *)
Theorem risk_text_of_dashboard_codes (rows : list WeekRow) (r : WeeklyRecord)
    (total_score : Z) (severity : string) :
  In r (_apply_alert_rules rows) ->
  let reasons := fired_labels r ++
    (if (15 <=? total_score)%Z then ["검사 총점 15점 이상"] else []) ++
    (if String.eqb severity "" then [] else ["심각도: " +:+ severity]) in
  risk_reasons (Some (alert_reason_codes r)) total_score severity = reasons /\
  _major_risk_factor_text (Some (alert_reason_codes r)) total_score severity =
    match reasons with
    | [] => "고위험 규칙 조건 충족"
    | _ => String.concat ", " reasons
    end.
Proof.
  intros Hin. apply alert_loop_elem in Hin as (a & b & c & row & _ & ->).
  apply risk_text_alert_row.
Qed.

Lemma risk_text_of_dashboard_codes_witness :
  exists r, In r (_apply_alert_rules alert_sample_rows) /\
  let reasons := fired_labels r ++
    (if (15 <=? 18)%Z then ["검사 총점 15점 이상"] else []) ++
    (if String.eqb "moderately severe" "" then [] else ["심각도: " +:+ "moderately severe"]) in
  risk_reasons (Some (alert_reason_codes r)) 18 "moderately severe" = reasons /\
  _major_risk_factor_text (Some (alert_reason_codes r)) 18 "moderately severe" =
    match reasons with
    | [] => "고위험 규칙 조건 충족"
    | _ => String.concat ", " reasons
    end.
Proof.
  eexists.
  assert (H : In _ (_apply_alert_rules alert_sample_rows)) by (vm_compute; left; reflexivity).
  split; [exact H | exact (risk_text_of_dashboard_codes _ _ 18 "moderately severe" H)].
Defined.

(** X18: [_major_risk_factor_text] never returns an empty string. *)
Theorem risk_text_nonempty (codes : option string) (total_score : Z) (severity : string) :
  _major_risk_factor_text codes total_score severity <> "".
Proof.
  unfold _major_risk_factor_text.
  destruct (dedup_fold_spec (risk_reasons codes total_score severity) [] (NoDup_nil_2))
    as (_ & Hin & _).
  pose proof (risk_reasons_nonempty codes total_score severity) as Hne.
  destruct (fold_left dedup_step _ []) as [|u us] eqn:E; [discriminate|].
  assert (Hu : u <> "").
  { destruct (proj1 (Hin u) (list_elem_of_here u us)) as [Hx|Hx]; [set_solver|].
    rewrite Forall_forall in Hne. exact (Hne u Hx). }
  simpl. destruct us as [|v us]; [exact Hu|].
  destruct u as [|x u]; [contradiction|]. discriminate.
Qed.


(** X20: [list_admin_high_risk] reads no score from an empty dashboard, and
    otherwise reads the scores and reason codes of the latest week. *)
Theorem high_risk_scores_latest_week ci ch as_ :
  (build_user_weekly_dashboard ci ch as_ = [] ->
   latest_scores (build_user_weekly_dashboard ci ch as_) =
     {| dep_score := None; anx_score := None; ins_score := None;
        composite_score := None; alert_codes := "" |}) /\
  (forall r, In r (build_user_weekly_dashboard ci ch as_) ->
   exists l, In l (build_user_weekly_dashboard ci ch as_) /\
     (week_start_date (wr_row r) <= week_start_date (wr_row l))%Z /\
     latest_scores (build_user_weekly_dashboard ci ch as_) =
       {| dep_score := Some (dep_week_pred_0_100 (wr_row l));
          anx_score := Some (anx_week_pred_0_100 (wr_row l));
          ins_score := Some (ins_week_pred_0_100 (wr_row l));
          composite_score := Some (symptom_composite_pred_0_100 (wr_row l));
          alert_codes := alert_reason_codes l |}).
Proof.
  pose proof (dashboard_sorted ci ch as_) as Hs.
  set (rows := build_user_weekly_dashboard ci ch as_) in *.
  split; [intros ->; reflexivity|].
  intros r Hr. unfold latest_scores.
  destruct (last rows) as [l|] eqn:El.
  - apply last_Some in El as [pre Hpre]. exists l. rewrite Hpre in Hr, Hs |- *.
    split; [apply in_or_app; right; left; done|]. split; [|reflexivity].
    exact (sorted_last_max (fun x => week_start_date (wr_row x)) pre l r Hs Hr).
  - apply last_None in El. rewrite El in Hr. destruct Hr.
Qed.

(** X21: the challenge adjustment of a day of the dashboard lowers the
    blended dep, anx and ins by at most 12, 10 and 6, and never raises them. *)
Theorem challenge_adjustment_bounded ci ch as_ (s : DailySignal) :
  In s (signals_loop (build_day_data ci ch as_) None (sorted_keys (build_day_data ci ch as_))) ->
  (blend_dep s - 12 <= preclip_dep s <= blend_dep s) /\
  (blend_anx s - 10 <= preclip_anx s <= blend_anx s) /\
  (blend_ins s - 6 <= preclip_ins s <= blend_ins s).
Proof.
  intros Hs. apply signals_loop_elem in Hs as (d & c & ->).
  assert (Hc : forall x, ds_challenge_completion
                 (day_signal d (default dd_empty (build_day_data ci ch as_ !! d)) c) = Some x ->
               0 <= x <= 1).
  { intros x Hx. exact (mean_bounds _ 0 1 x (day_rates_unit ci ch as_ d) Hx). }
  unfold preclip_dep, preclip_anx, preclip_ins, blend_dep, blend_anx, blend_ins, proxy_preclip.
  destruct (proxy_blend _) as [[dep anx] ins].
  destruct (ds_challenge_completion _) as [x|] eqn:E; simpl.
  - specialize (Hc x eq_refl). lra.
  - lra.
Qed.

Lemma challenge_adjustment_bounded_witness :
  let s := hd (day_signal 0 dd_empty None)
             (signals_loop challenge_sample_day_data None (sorted_keys challenge_sample_day_data)) in
  In s (signals_loop challenge_sample_day_data None (sorted_keys challenge_sample_day_data)) /\
  (exists c, ds_challenge_completion s = Some c /\ c == 0.75) /\
  (blend_dep s - 12 <= preclip_dep s <= blend_dep s) /\
  (blend_anx s - 10 <= preclip_anx s <= blend_anx s) /\
  (blend_ins s - 6 <= preclip_ins s <= blend_ins s).
Proof.
  cbv zeta.
  assert (H : In (hd (day_signal 0 dd_empty None)
                   (signals_loop challenge_sample_day_data None
                      (sorted_keys challenge_sample_day_data)))
                 (signals_loop challenge_sample_day_data None
                    (sorted_keys challenge_sample_day_data)))
    by (vm_compute; left; reflexivity).
  split; [exact H|]. split; [eexists; split; [vm_compute; reflexivity | reflexivity]|].
  exact (challenge_adjustment_bounded challenge_sample_checkins [] [] _ H).
Defined.

(** X22: when every questionnaire total lies in [0, 27], the carried PHQ
    value of every day lies in [0, 100]. *)
Theorem carried_phq_in_range ci ch as_ (s : DailySignal) (p : Q) :
  Forall (fun a => (0 <= total_score a <= 27)%Z) as_ ->
  In s (signals_loop (build_day_data ci ch as_) None (sorted_keys (build_day_data ci ch as_))) ->
  ds_carried_phq s = Some p -> 0 <= p <= 100.
Proof.
  intros Has.
  apply signals_loop_carry_range; [intros d; apply day_phq_range, Has | discriminate].
Qed.

Lemma carried_phq_in_range_witness :
  Forall (fun a => (0 <= total_score a <= 27)%Z)
    [{| as_date := monday_2024_01_01; as_type := PHQ9; total_score := 18 |}] /\
  In (hd (day_signal 0 dd_empty None)
        (signals_loop carry_sample_day_data None (sorted_keys carry_sample_day_data)))
     (signals_loop carry_sample_day_data None (sorted_keys carry_sample_day_data)) /\
  exists p, ds_carried_phq (hd (day_signal 0 dd_empty None)
              (signals_loop carry_sample_day_data None (sorted_keys carry_sample_day_data)))
            = Some p /\ 0 <= p <= 100.
Proof.
  assert (H0 : Forall (fun a => (0 <= total_score a <= 27)%Z)
    [{| as_date := monday_2024_01_01; as_type := PHQ9; total_score := 18 |}])
    by (constructor; [simpl; lia | constructor]).
  assert (H1 : In (hd (day_signal 0 dd_empty None)
                    (signals_loop carry_sample_day_data None (sorted_keys carry_sample_day_data)))
                  (signals_loop carry_sample_day_data None (sorted_keys carry_sample_day_data)))
    by (vm_compute; left; reflexivity).
  assert (H2 : exists p, ds_carried_phq (hd (day_signal 0 dd_empty None)
                 (signals_loop carry_sample_day_data None (sorted_keys carry_sample_day_data)))
               = Some p) by (eexists; reflexivity).
  destruct H2 as [p H2].
  split; [exact H0|]. split; [exact H1|]. exists p. split; [exact H2|].
  exact (carried_phq_in_range
    [plain_checkin (monday_2024_01_01 + 1) 5; plain_checkin (monday_2024_01_01 + 3) 6;
     plain_checkin (monday_2024_01_01 + 7) 7]
    [] [{| as_date := monday_2024_01_01; as_type := PHQ9; total_score := 18 |}] _ p H0 H1 H2).
Defined.

(** X23: the [major_risk_factors] that [list_admin_high_risk] builds from a
    user's dashboard list the labels of the rules fired in the latest week,
    then the total-score and severity reasons; with no week, only the
    latter, and the fixed sentence when there is none. *)
Theorem major_risk_factors_of_latest ci ch as_ (total_score : Z) (severity : string) :
  let rows := build_user_weekly_dashboard ci ch as_ in
  let others := (if (15 <=? total_score)%Z then ["검사 총점 15점 이상"] else []) ++
                (if String.eqb severity "" then [] else ["심각도: " +:+ severity]) in
  let reasons := match last rows with
                 | Some l => fired_labels l ++ others
                 | None => others
                 end in
  major_risk_factors rows total_score severity =
    match reasons with
    | [] => "고위험 규칙 조건 충족"
    | _ => String.concat ", " reasons
    end.
Proof.
  cbv zeta. unfold major_risk_factors, latest_scores.
  destruct (last (build_user_weekly_dashboard ci ch as_)) as [l|] eqn:El; cbn [alert_codes].
  - apply last_Some in El as [pre Hpre].
    assert (Hl : In l (build_user_weekly_dashboard ci ch as_))
      by (rewrite Hpre; apply in_or_app; right; left; done).
    revert Hl. rewrite dashboard_unfold. cbv zeta. case_decide; [intros []|intros Hl].
    apply alert_loop_elem in Hl as (a & b & c & row & _ & ->).
    exact (proj2 (risk_text_alert_row a b c row total_score severity)).
  - unfold _major_risk_factor_text, risk_reasons.
    destruct (15 <=? total_score)%Z, (String.eqb severity ""); vm_compute; reflexivity.
Qed.
